(** * gps-speed-meter: the live tracking core

    A shallow embedding of the tracking state machine and the derived-metrics
    engine of the application, with the properties its specification states
    about them.

    Sources embedded here:
    - [services/speed-calculator]  ([haversineDistance], [calculateSpeed], ...)
    - [stores/trip-store]          (the Zustand store of the current trip)
    - [database/queries.ts]        (the [trips] table)
    - [hooks/useTracking.ts]       (the hook: refs, handlers, timers)
    - [constants/config]           ([STATIONARY_CONFIG], [CONVERSION], ...)

    Conventions of the embedding:
    - a JavaScript [number] that carries a measurement (coordinates, speeds,
      distances, sample timestamps) is a real number: arithmetic is exact and
      there is no NaN and no infinity;
    - [Date.now()] and everything derived from it alone (start times, timer
      deadlines) is an integer number of milliseconds, and [Math.floor] of an
      integer quotient is [Z.div];
    - [x | null] is [option x]; a condition on such a value is JavaScript
      truthiness ([null] and [0] are falsy);
    - every handler runs from its first line to its last without another
      handler in between (one event loop); what the handler reads from the
      outside world (the clock, a permission, whether the location source
      started) is an argument of its embedding;
    - React refs and the store are two parts of the state; the effect that
      copies the store into the refs is the function [syncRefs], an event of
      its own ([Render]): the untimed properties hold whenever it runs, the
      timed runs of the auto-pause let it run after each handler. *)

From Stdlib Require Import Reals Lra Lia ZArith List Bool.
Import ListNotations.

Open Scope R_scope.

(** ** Numbers *)

Definition num_lt (x y : R) : bool := if Rlt_dec x y then true else false.
Definition num_le (x y : R) : bool := if Rle_dec x y then true else false.
Definition num_gt (x y : R) : bool := num_lt y x.
Definition num_ge (x y : R) : bool := num_le y x.

(** Truthiness of a [number | null] that holds an integer. *)
Definition truthy (v : option Z) : bool :=
  match v with
  | Some n => negb (Z.eqb n 0)
  | None => false
  end.

(** [Math.atan2 y x] on the reals: the angle of the point [(x, y)], in
    [(-PI, PI]]; [atan2 0 0 = 0] as in ECMAScript. *)
Definition atan2 (y x : R) : R :=
  if Rlt_dec 0 x then atan (y / x)
  else if Rlt_dec x 0 then
    (if Rle_dec 0 y then atan (y / x) + PI else atan (y / x) - PI)
  else if Rlt_dec 0 y then PI / 2
  else if Rlt_dec y 0 then - (PI / 2)
  else 0.

(** ** constants/config *)

Module CONVERSION.
Definition MS_TO_KMH : R := 36 / 10.
Definition KMH_TO_MPH : R := 621371 / 1000000.
Definition MPH_TO_KMH : R := 160934 / 100000.
Definition METERS_TO_KM : R := 1 / 1000.
Definition METERS_TO_MILES : R := 621371 / 1000000000.
End CONVERSION.

Module STATIONARY_CONFIG.
Definition threshold : R := 1.
Definition duration : Z := 5.
End STATIONARY_CONFIG.

(** ** types/index.ts *)

Module LocationPoint.
Record t : Type := mk {
  tripId : Z;
  latitude : R;
  longitude : R;
  speed : option R;      (* m/s from GPS *)
  altitude : option R;
  accuracy : option R;
  timestamp : R
}.
End LocationPoint.

Inductive TripStatus : Type := active | paused | completed.

Definition TripStatus_eqb (a b : TripStatus) : bool :=
  match a, b with
  | active, active | paused, paused | completed, completed => true
  | _, _ => false
  end.

Module Trip.
Record t : Type := mk {
  id : Z;
  startTime : Z;
  endTime : option Z;
  totalDistance : R;
  maxSpeed : R;
  avgSpeed : R;
  status : TripStatus
}.
End Trip.

Inductive SpeedUnit : Type := kmh | mph.

Inductive GpsStatus : Type := searching | acquired | lost.

Module Settings.
Record t : Type := mk {
  unit : SpeedUnit;
  autoPauseEnabled : bool;
  autoPauseThreshold : R
}.
End Settings.

(** ** services/speed-calculator *)

Definition toRadians (degrees : R) : R := degrees * (PI / 180).

(** The quantity [a] of [haversineDistance]. *)
Definition haversineA (lat1 lon1 lat2 lon2 : R) : R :=
  let lat1Rad := toRadians lat1 in
  let lat2Rad := toRadians lat2 in
  let deltaLat := toRadians (lat2 - lat1) in
  let deltaLon := toRadians (lon2 - lon1) in
  sin (deltaLat / 2) * sin (deltaLat / 2) +
  cos lat1Rad * cos lat2Rad * sin (deltaLon / 2) * sin (deltaLon / 2).

Definition haversineCoords (lat1 lon1 lat2 lon2 : R) : R :=
  let R0 := 6371000 in
  let a := haversineA lat1 lon1 lat2 lon2 in
  let c := 2 * atan2 (sqrt a) (sqrt (1 - a)) in
  R0 * c.

Definition haversineDistance (point1 point2 : LocationPoint.t) : R :=
  haversineCoords (LocationPoint.latitude point1) (LocationPoint.longitude point1)
                  (LocationPoint.latitude point2) (LocationPoint.longitude point2).

Definition GPS_NOISE_THRESHOLD_KMH : R := 1.


(** The test [speed !== null && speed >= 0] of [calculateSpeed], with the
    speed it lets through. *)
Definition gpsProvidedSpeed (currentLocation : LocationPoint.t) : option R :=
  match LocationPoint.speed currentLocation with
  | Some s => if num_ge s 0 then Some s else None
  | None => None
  end.

Definition calculateSpeed (currentLocation : LocationPoint.t)
    (prevLocation : option LocationPoint.t) : R :=
  let speed :=
    match gpsProvidedSpeed currentLocation with
    | Some s => s * CONVERSION.MS_TO_KMH
    | None =>
        match prevLocation with
        | Some prev =>
            let distance := haversineDistance prev currentLocation in
            let timeDiff :=
              (LocationPoint.timestamp currentLocation
               - LocationPoint.timestamp prev) / 1000 in
            if num_gt timeDiff 0
            then distance / timeDiff * CONVERSION.MS_TO_KMH
            else 0
        | None => 0
        end
    end in
  if num_lt speed GPS_NOISE_THRESHOLD_KMH then 0 else speed.

(** A division that refuses a zero divisor, and [calculateSpeed] written
    with it: [None] would mean that the function divided by zero. *)
Definition checkedDiv (x y : R) : option R :=
  if Req_dec_T y 0 then None else Some (x / y).

Definition calculateSpeedChecked (currentLocation : LocationPoint.t)
    (prevLocation : option LocationPoint.t) : option R :=
  let filter (speed : R) :=
    if num_lt speed GPS_NOISE_THRESHOLD_KMH then 0 else speed in
  match gpsProvidedSpeed currentLocation with
  | Some s => Some (filter (s * CONVERSION.MS_TO_KMH))
  | None =>
      match prevLocation with
      | Some prev =>
          let distance := haversineDistance prev currentLocation in
          let timeDiff :=
            (LocationPoint.timestamp currentLocation
             - LocationPoint.timestamp prev) / 1000 in
          if num_gt timeDiff 0
          then option_map (fun speedMs => filter (speedMs * CONVERSION.MS_TO_KMH))
                          (checkedDiv distance timeDiff)
          else Some (filter 0)
      | None => Some (filter 0)
      end
  end.

(** ** stores/trip-store *)

Module TripStore.

Record t : Type := mk {
  isTracking : bool;
  isPaused : bool;
  currentSpeed : R;
  currentTripId : option Z;
  totalDistance : R;
  avgSpeed : R;
  maxSpeed : R;
  elapsedTime : Z;
  lastLocation : option LocationPoint.t;
  gpsStatus : GpsStatus;
  accuracy : option R;
  tripStartTime : option Z
}.

Definition initialState : t :=
  {| isTracking := false; isPaused := false; currentSpeed := 0;
     currentTripId := None; totalDistance := 0; avgSpeed := 0; maxSpeed := 0;
     elapsedTime := 0%Z; lastLocation := None; gpsStatus := searching;
     accuracy := None; tripStartTime := None |}.

(** [now] is the value of [Date.now()] in the actions that read the clock. *)

Definition startTracking (now : Z) (tripId : Z) (s : t) : t :=
  {| isTracking := true; isPaused := false; currentSpeed := currentSpeed s;
     currentTripId := Some tripId; totalDistance := 0; avgSpeed := 0;
     maxSpeed := 0; elapsedTime := 0%Z; lastLocation := lastLocation s;
     gpsStatus := searching; accuracy := accuracy s;
     tripStartTime := Some now |}.

Definition restoreTracking (now : Z) (tripId startTime : Z)
    (totalDistance' maxSpeed' avgSpeed' : R) (s : t) : t :=
  let elapsedTime' := ((now - startTime) / 1000)%Z in
  {| isTracking := true; isPaused := false; currentSpeed := currentSpeed s;
     currentTripId := Some tripId; totalDistance := totalDistance';
     avgSpeed := avgSpeed'; maxSpeed := maxSpeed'; elapsedTime := elapsedTime';
     lastLocation := lastLocation s; gpsStatus := searching;
     accuracy := accuracy s; tripStartTime := Some startTime |}.

Definition stopTracking (s : t) : t :=
  {| isTracking := false; isPaused := false; currentSpeed := currentSpeed s;
     currentTripId := None; totalDistance := totalDistance s;
     avgSpeed := avgSpeed s; maxSpeed := maxSpeed s;
     elapsedTime := elapsedTime s; lastLocation := lastLocation s;
     gpsStatus := gpsStatus s; accuracy := accuracy s;
     tripStartTime := None |}.

Definition setPaused (b : bool) (s : t) : t :=
  {| isTracking := isTracking s; isPaused := b; currentSpeed := currentSpeed s;
     currentTripId := currentTripId s; totalDistance := totalDistance s;
     avgSpeed := avgSpeed s; maxSpeed := maxSpeed s;
     elapsedTime := elapsedTime s; lastLocation := lastLocation s;
     gpsStatus := gpsStatus s; accuracy := accuracy s;
     tripStartTime := tripStartTime s |}.

Definition pauseTracking (s : t) : t := setPaused true s.

Definition resumeTracking (s : t) : t := setPaused false s.

Definition updateLocation (location : LocationPoint.t) (speed : R) (s : t) : t :=
  let newMaxSpeed := Rmax (maxSpeed s) speed in
  {| isTracking := isTracking s; isPaused := isPaused s; currentSpeed := speed;
     currentTripId := currentTripId s; totalDistance := totalDistance s;
     avgSpeed := avgSpeed s; maxSpeed := newMaxSpeed;
     elapsedTime := elapsedTime s; lastLocation := Some location;
     gpsStatus := acquired; accuracy := LocationPoint.accuracy location;
     tripStartTime := tripStartTime s |}.

(** [(totalDistance / 1000) / elapsedHours], or [0] when no time has
    passed: the average of [updateDistance] and of [updateElapsedTime]. *)
Definition average (distance elapsedHours : R) : R :=
  if num_gt elapsedHours 0 then (distance / 1000) / elapsedHours else 0.

Definition updateDistance (now : Z) (distance : R) (s : t) : t :=
  let newTotalDistance := totalDistance s + distance in
  let elapsedSeconds :=
    match tripStartTime s with
    | Some start =>
        if truthy (Some start) then IZR (now - start) / 1000 else 0
    | None => 0
    end in
  let elapsedHours := elapsedSeconds / 3600 in
  let avgSpeed' := average newTotalDistance elapsedHours in
  {| isTracking := isTracking s; isPaused := isPaused s;
     currentSpeed := currentSpeed s; currentTripId := currentTripId s;
     totalDistance := newTotalDistance; avgSpeed := avgSpeed';
     maxSpeed := maxSpeed s; elapsedTime := elapsedTime s;
     lastLocation := lastLocation s; gpsStatus := gpsStatus s;
     accuracy := accuracy s; tripStartTime := tripStartTime s |}.

Definition updateGpsStatus (status : GpsStatus) (s : t) : t :=
  {| isTracking := isTracking s; isPaused := isPaused s;
     currentSpeed := currentSpeed s; currentTripId := currentTripId s;
     totalDistance := totalDistance s; avgSpeed := avgSpeed s;
     maxSpeed := maxSpeed s; elapsedTime := elapsedTime s;
     lastLocation := lastLocation s; gpsStatus := status;
     accuracy := accuracy s; tripStartTime := tripStartTime s |}.

Definition updateElapsedTime (now : Z) (s : t) : t :=
  match tripStartTime s with
  | Some start =>
      if truthy (Some start) && isTracking s && negb (isPaused s)
      then
        let elapsedTime' := ((now - start) / 1000)%Z in
        let elapsedHours := IZR elapsedTime' / 3600 in
        let avgSpeed' := average (totalDistance s) elapsedHours in
        {| isTracking := isTracking s; isPaused := isPaused s;
           currentSpeed := currentSpeed s; currentTripId := currentTripId s;
           totalDistance := totalDistance s; avgSpeed := avgSpeed';
           maxSpeed := maxSpeed s; elapsedTime := elapsedTime';
           lastLocation := lastLocation s; gpsStatus := gpsStatus s;
           accuracy := accuracy s; tripStartTime := tripStartTime s |}
      else s
  | None => s
  end.

Definition reset (s : t) : t := initialState.

End TripStore.

(** ** database/queries.ts

    The [trips] table as the list of its rows in insertion order, with the
    counter of its [INTEGER PRIMARY KEY AUTOINCREMENT] column. *)

Module Database.

Record t : Type := mk {
  trips : list Trip.t;
  nextTripId : Z;
  location_points : list LocationPoint.t
}.

Definition empty : t :=
  {| trips := []; nextTripId := 1%Z; location_points := [] |}.

(** [INSERT INTO trips (start_time, status) VALUES (now, 'active')]; the
    other columns take their defaults. *)
Definition createTrip (now : Z) (db : t) : Z * t :=
  let rowid := nextTripId db in
  (rowid,
   {| trips := trips db ++
        [ {| Trip.id := rowid; Trip.startTime := now; Trip.endTime := None;
             Trip.totalDistance := 0; Trip.maxSpeed := 0; Trip.avgSpeed := 0;
             Trip.status := active |} ];
      nextTripId := (rowid + 1)%Z;
      location_points := location_points db |}).

Definition getTripById (tripId : Z) (db : t) : option Trip.t :=
  find (fun row => Z.eqb (Trip.id row) tripId) (trips db).

(** [SELECT * FROM trips WHERE status = 'active' LIMIT 1]. *)
Definition getActiveTrip (db : t) : option Trip.t :=
  find (fun row => TripStatus_eqb (Trip.status row) active) (trips db).

Definition updateRows (tripId : Z) (f : Trip.t -> Trip.t) (db : t) : t :=
  {| trips := map (fun row => if Z.eqb (Trip.id row) tripId then f row else row)
                  (trips db);
     nextTripId := nextTripId db;
     location_points := location_points db |}.

Definition updateTripStats (tripId : Z)
    (totalDistance maxSpeed avgSpeed : option R) (db : t) : t :=
  match totalDistance, maxSpeed, avgSpeed with
  | None, None, None => db
  | _, _, _ =>
      updateRows tripId
        (fun row =>
           {| Trip.id := Trip.id row; Trip.startTime := Trip.startTime row;
              Trip.endTime := Trip.endTime row;
              Trip.totalDistance :=
                match totalDistance with Some v => v | None => Trip.totalDistance row end;
              Trip.maxSpeed :=
                match maxSpeed with Some v => v | None => Trip.maxSpeed row end;
              Trip.avgSpeed :=
                match avgSpeed with Some v => v | None => Trip.avgSpeed row end;
              Trip.status := Trip.status row |})
        db
  end.

Definition completeTrip (now : Z) (tripId : Z) (db : t) : t :=
  updateRows tripId
    (fun row =>
       {| Trip.id := Trip.id row; Trip.startTime := Trip.startTime row;
          Trip.endTime := Some now;
          Trip.totalDistance := Trip.totalDistance row;
          Trip.maxSpeed := Trip.maxSpeed row;
          Trip.avgSpeed := Trip.avgSpeed row;
          Trip.status := completed |})
    db.

Definition addLocationPoint (point : LocationPoint.t) (db : t) : t :=
  {| trips := trips db; nextTripId := nextTripId db;
     location_points := location_points db ++ [point] |}.


End Database.

(** ** hooks/useTracking.ts *)

(** [Location.LocationObject] of expo-location, [coords] flattened. *)
Module LocationObject.
Record t : Type := mk {
  latitude : R;
  longitude : R;
  speed : option R;
  altitude : option R;
  accuracy : option R;
  timestamp : R
}.
End LocationObject.

Inductive PermissionStatus : Type := undetermined | granted | denied | restricted.

Module Tracking.

(** The refs of the hook. [stationaryTimerRef] holds the pending timeout of
    the auto-pause, as the time at which it is due. *)
Record Refs : Type := mkRefs {
  tripIdRef : option Z;
  isPausedRef : bool;
  lastLocationRef : option LocationPoint.t;
  totalDistanceRef : R;
  maxSpeedRef : R;
  tripStartTimeRef : option Z;
  stationaryTimerRef : option Z;
  lastGpsUpdateRef : Z
}.

(** Everything the hook works on. [callbackAvgSpeed] is the [avgSpeed] that
    the location callback handed to the location source closed over. *)
Record World : Type := mkWorld {
  store : TripStore.t;
  refs : Refs;
  db : Database.t;
  settings : Settings.t;
  callbackAvgSpeed : R
}.

Definition initialRefs (now : Z) : Refs :=
  {| tripIdRef := None; isPausedRef := false; lastLocationRef := None;
     totalDistanceRef := 0; maxSpeedRef := 0; tripStartTimeRef := None;
     stationaryTimerRef := None; lastGpsUpdateRef := now |}.

Definition initialWorld (cfg : Settings.t) (now : Z) : World :=
  {| store := TripStore.initialState; refs := initialRefs now;
     db := Database.empty; settings := cfg; callbackAvgSpeed := 0 |}.

Definition withStore (f : TripStore.t -> TripStore.t) (w : World) : World :=
  {| store := f (store w); refs := refs w; db := db w;
     settings := settings w; callbackAvgSpeed := callbackAvgSpeed w |}.

Definition withRefs (f : Refs -> Refs) (w : World) : World :=
  {| store := store w; refs := f (refs w); db := db w;
     settings := settings w; callbackAvgSpeed := callbackAvgSpeed w |}.

Definition withDb (f : Database.t -> Database.t) (w : World) : World :=
  {| store := store w; refs := refs w; db := f (db w);
     settings := settings w; callbackAvgSpeed := callbackAvgSpeed w |}.

Definition setStationaryTimer (v : option Z) (r : Refs) : Refs :=
  {| tripIdRef := tripIdRef r; isPausedRef := isPausedRef r;
     lastLocationRef := lastLocationRef r;
     totalDistanceRef := totalDistanceRef r; maxSpeedRef := maxSpeedRef r;
     tripStartTimeRef := tripStartTimeRef r; stationaryTimerRef := v;
     lastGpsUpdateRef := lastGpsUpdateRef r |}.

Definition setLastGpsUpdate (now : Z) (r : Refs) : Refs :=
  {| tripIdRef := tripIdRef r; isPausedRef := isPausedRef r;
     lastLocationRef := lastLocationRef r;
     totalDistanceRef := totalDistanceRef r; maxSpeedRef := maxSpeedRef r;
     tripStartTimeRef := tripStartTimeRef r;
     stationaryTimerRef := stationaryTimerRef r; lastGpsUpdateRef := now |}.

Definition setTripId (v : option Z) (r : Refs) : Refs :=
  {| tripIdRef := v; isPausedRef := isPausedRef r;
     lastLocationRef := lastLocationRef r;
     totalDistanceRef := totalDistanceRef r; maxSpeedRef := maxSpeedRef r;
     tripStartTimeRef := tripStartTimeRef r;
     stationaryTimerRef := stationaryTimerRef r;
     lastGpsUpdateRef := lastGpsUpdateRef r |}.

Definition setIsPaused (b : bool) (r : Refs) : Refs :=
  {| tripIdRef := tripIdRef r; isPausedRef := b;
     lastLocationRef := lastLocationRef r;
     totalDistanceRef := totalDistanceRef r; maxSpeedRef := maxSpeedRef r;
     tripStartTimeRef := tripStartTimeRef r;
     stationaryTimerRef := stationaryTimerRef r;
     lastGpsUpdateRef := lastGpsUpdateRef r |}.

(** The effect "Sync refs with store state". *)
Definition syncRefs (w : World) : World :=
  withRefs (fun r =>
    {| tripIdRef := TripStore.currentTripId (store w);
       isPausedRef := TripStore.isPaused (store w);
       lastLocationRef := TripStore.lastLocation (store w);
       totalDistanceRef := TripStore.totalDistance (store w);
       maxSpeedRef := TripStore.maxSpeed (store w);
       tripStartTimeRef := tripStartTimeRef r;
       stationaryTimerRef := stationaryTimerRef r;
       lastGpsUpdateRef := lastGpsUpdateRef r |}) w.

(** *** checkForActiveTrip *)
Definition checkForActiveTrip (now : Z) (w : World) : World :=
  match Database.getActiveTrip (db w) with
  | Some activeTrip =>
      if negb (TripStore.isTracking (store w)) then
        {| store :=
             TripStore.restoreTracking now (Trip.id activeTrip)
               (Trip.startTime activeTrip) (Trip.totalDistance activeTrip)
               (Trip.maxSpeed activeTrip) (Trip.avgSpeed activeTrip) (store w);
           refs :=
             {| tripIdRef := Some (Trip.id activeTrip); isPausedRef := false;
                lastLocationRef := lastLocationRef (refs w);
                totalDistanceRef := Trip.totalDistance activeTrip;
                maxSpeedRef := Trip.maxSpeed activeTrip;
                tripStartTimeRef := Some (Trip.startTime activeTrip);
                stationaryTimerRef := stationaryTimerRef (refs w);
                lastGpsUpdateRef := lastGpsUpdateRef (refs w) |};
           db := db w; settings := settings w;
           callbackAvgSpeed := TripStore.avgSpeed (store w) |}
      else w
  | None => w
  end.

(** *** The interval of the elapsed time, with the speed decay. It is
    installed only while [isTracking && !isPaused]. A [lastLocation] that
    is [null] makes [updateLocation] throw before it sets anything. *)
Definition elapsedTimeTick (now : Z) (w : World) : World :=
  if TripStore.isTracking (store w) && negb (TripStore.isPaused (store w)) then
    let w1 := withStore (TripStore.updateElapsedTime now) w in
    let timeSinceLastUpdate := (now - lastGpsUpdateRef (refs w))%Z in
    if Z.ltb 3000 timeSinceLastUpdate
       && num_gt (TripStore.currentSpeed (store w)) 0
    then
      match TripStore.lastLocation (store w) with
      | Some location => withStore (TripStore.updateLocation location 0) w1
      | None => w1
      end
    else w1
  else w.

(** *** checkGpsLoss, on its interval, installed while [isTracking]. *)
Definition GpsStatus_eqb (a b : GpsStatus) : bool :=
  match a, b with
  | searching, searching | acquired, acquired | lost, lost => true
  | _, _ => false
  end.

Definition checkGpsLoss (now : Z) (w : World) : World :=
  if negb (TripStore.isTracking (store w)) then w
  else if isPausedRef (refs w) then w
  else
    let timeSinceLastUpdate := (now - lastGpsUpdateRef (refs w))%Z in
    if Z.ltb 10000 timeSinceLastUpdate
       && negb (GpsStatus_eqb (TripStore.gpsStatus (store w)) lost)
    then withStore (TripStore.updateGpsStatus lost) w
    else w.

(** *** handleStationaryDetection *)
Definition autoPauseThresholdKmh (cfg : Settings.t) : R :=
  match Settings.unit cfg with
  | mph => Settings.autoPauseThreshold cfg * (621371 / 1000000)
  | kmh => Settings.autoPauseThreshold cfg
  end.

Definition handleStationaryDetection (now : Z) (speed : R) (w : World) : World :=
  if negb (Settings.autoPauseEnabled (settings w)) || isPausedRef (refs w)
  then w
  else
    let threshold := autoPauseThresholdKmh (settings w) in
    if num_lt speed threshold then
      match stationaryTimerRef (refs w) with
      | None =>
          withRefs (setStationaryTimer
                      (Some (now + STATIONARY_CONFIG.duration * 1000)%Z)) w
      | Some _ => w
      end
    else
      let w1 :=
        match stationaryTimerRef (refs w) with
        | Some _ => withRefs (setStationaryTimer None) w
        | None => w
        end in
      if isPausedRef (refs w1) && num_ge speed threshold
      then withStore TripStore.resumeTracking w1
      else w1.

(** The callback of the stationary timeout. *)
Definition stationaryTimeout (w : World) : World :=
  let w1 :=
    if truthy (tripIdRef (refs w)) && negb (isPausedRef (refs w))
    then withStore TripStore.pauseTracking w
    else w in
  withRefs (setStationaryTimer None) w1.

(** *** handleLocationUpdate *)
Definition newPointOf (currentTripId : Z) (location : LocationObject.t)
    : LocationPoint.t :=
  {| LocationPoint.tripId := currentTripId;
     LocationPoint.latitude := LocationObject.latitude location;
     LocationPoint.longitude := LocationObject.longitude location;
     LocationPoint.speed := LocationObject.speed location;
     LocationPoint.altitude := LocationObject.altitude location;
     LocationPoint.accuracy := LocationObject.accuracy location;
     LocationPoint.timestamp := LocationObject.timestamp location |}.

(** The distance counted for a sample: lines "Calculate distance from last
    point" of [handleLocationUpdate]. *)
Definition distanceIncrementOf (lastLocation : option LocationPoint.t)
    (newPoint : LocationPoint.t) (speed : R) : R :=
  match lastLocation with
  | Some last => if num_gt speed 0 then haversineDistance last newPoint else 0
  | None => 0
  end.

(** Lines "Update store": [updateLocation], then [updateDistance] when
    the increment is positive. *)
Definition updateStore (now : Z) (newPoint : LocationPoint.t)
    (speed distanceIncrement : R) (s : TripStore.t) : TripStore.t :=
  let s1 := TripStore.updateLocation newPoint speed s in
  if num_gt distanceIncrement 0
  then TripStore.updateDistance now distanceIncrement s1
  else s1.

Definition handleLocationUpdate (location : LocationObject.t) (now : Z)
    (w : World) : World :=
  let currentTripId := tripIdRef (refs w) in
  let currentIsPaused := isPausedRef (refs w) in
  let w0 := withRefs (setLastGpsUpdate now) w in
  match currentTripId with
  | None => w0
  | Some tripId =>
      if negb (truthy currentTripId) then w0
      else if currentIsPaused then w0
      else
        let newPoint := newPointOf tripId location in
        let speed := calculateSpeed newPoint (lastLocationRef (refs w0)) in
        let distanceIncrement :=
          distanceIncrementOf (lastLocationRef (refs w0)) newPoint speed in
        let w2 :=
          withStore (updateStore now newPoint speed distanceIncrement) w0 in
        let w3 := handleStationaryDetection now speed w2 in
        let newDistance := totalDistanceRef (refs w3) + distanceIncrement in
        withDb (fun d =>
                  Database.updateTripStats tripId (Some newDistance)
                    (Some (Rmax (maxSpeedRef (refs w3)) speed))
                    (Some (callbackAvgSpeed w3))
                    (Database.addLocationPoint newPoint d)) w3
  end.

(** *** startTracking. What the call finds outside: the foreground
    permission, whether the database answers ([initDatabase] and
    [createTrip] do not throw), whether [startFullTracking] succeeds. *)
Record StartEnv : Type := mkStartEnv {
  foreground : PermissionStatus;
  databaseAnswers : bool;
  foregroundStarted : bool
}.

Definition isGranted (p : PermissionStatus) : bool :=
  match p with granted => true | _ => false end.

Definition startFailed (w : World) : World :=
  withStore TripStore.stopTracking (withRefs (setTripId None) w).

Definition startTracking (env : StartEnv) (now : Z) (w : World) : bool * World :=
  if negb (isGranted (foreground env)) then (false, w)
  else if negb (databaseAnswers env) then (false, startFailed w)
  else
    let (tripId, db1) := Database.createTrip now (db w) in
    let w1 :=
      {| store := TripStore.startTracking now tripId (store w);
         refs :=
           {| tripIdRef := Some tripId; isPausedRef := false;
              lastLocationRef := None; totalDistanceRef := 0;
              maxSpeedRef := 0; tripStartTimeRef := Some now;
              stationaryTimerRef := stationaryTimerRef (refs w);
              lastGpsUpdateRef := lastGpsUpdateRef (refs w) |};
         db := db1; settings := settings w;
         callbackAvgSpeed := TripStore.avgSpeed (store w) |} in
    if negb (foregroundStarted env) then (false, startFailed w1)
    else (true, w1).

(** *** stopTracking *)
Definition stopTracking (now : Z) (w : World) : World :=
  let db1 :=
    match tripIdRef (refs w) with
    | Some currentTripId =>
        if truthy (Some currentTripId)
        then Database.completeTrip now currentTripId (db w)
        else db w
    | None => db w
    end in
  {| store := TripStore.reset (TripStore.stopTracking (store w));
     refs :=
       {| tripIdRef := None; isPausedRef := false; lastLocationRef := None;
          totalDistanceRef := totalDistanceRef (refs w);
          maxSpeedRef := maxSpeedRef (refs w); tripStartTimeRef := None;
          stationaryTimerRef := None;
          lastGpsUpdateRef := lastGpsUpdateRef (refs w) |};
     db := db1; settings := settings w;
     callbackAvgSpeed := callbackAvgSpeed w |}.

(** *** pauseTracking, resumeTracking *)
Definition pauseTracking (w : World) : World :=
  withStore TripStore.pauseTracking (withRefs (setIsPaused true) w).

Definition resumeTracking (w : World) : World :=
  withStore TripStore.resumeTracking (withRefs (setIsPaused false) w).

End Tracking.

(** ** The event loop

    What can happen to the hook: the four commands it returns, and the
    callbacks it has handed out (location source, timers, app state). *)

Module Loop.
Import Tracking.

Inductive Event : Type :=
| Start (env : StartEnv) (now : Z)
| Stop (now : Z)
| Pause
| Resume
| LocationUpdate (location : LocationObject.t) (now : Z)
| StationaryTimeout
| ElapsedTimeTick (now : Z)
| GpsLossCheck (now : Z)
| ActiveTripCheck (now : Z)
| Render.

(** The handler of an event. A stationary timeout runs only while its
    timer is pending; [Render] is the render whose effect copies the store
    into the refs. *)
Definition handle (e : Event) (w : World) : World :=
  match e with
  | Start env now => snd (startTracking env now w)
  | Stop now => stopTracking now w
  | Pause => pauseTracking w
  | Resume => resumeTracking w
  | LocationUpdate location now => handleLocationUpdate location now w
  | StationaryTimeout =>
      match stationaryTimerRef (refs w) with
      | Some _ => stationaryTimeout w
      | None => w
      end
  | ElapsedTimeTick now => elapsedTimeTick now w
  | GpsLossCheck now => checkGpsLoss now w
  | ActiveTripCheck now => checkForActiveTrip now w
  | Render => syncRefs w
  end.

Definition run (events : list Event) (w : World) : World :=
  fold_left (fun acc e => handle e acc) events w.

Inductive Reachable (cfg : Settings.t) (t0 : Z) : World -> Prop :=
| Reachable_init : Reachable cfg t0 (initialWorld cfg t0)
| Reachable_handle e w : Reachable cfg t0 w -> Reachable cfg t0 (handle e w).

(** A handler followed at once by the render. *)
Definition step (e : Event) (w : World) : World := handle Render (handle e w).

(** Events that neither begin nor end a trip. *)
Definition duringTrip (e : Event) : bool :=
  match e with
  | Start _ _ | Stop _ => false
  | _ => true
  end.




(** *** Timed delivery, for the auto-pause

    At time [now] the loop first runs the stationary timeout if it is due,
    then delivers what arrived at [now]: a location sample, or nothing (the
    trip is only looked at). [pauseEdges] counts the Active to Paused
    transitions on the way. *)
Definition fireDue (now : Z) (w : World) : World :=
  match stationaryTimerRef (refs w) with
  | Some due => if Z.leb due now then step StationaryTimeout w else w
  | None => w
  end.

Definition pauseEdge (before after : World) : nat :=
  if negb (TripStore.isPaused (store before)) && TripStore.isPaused (store after)
  then 1%nat else 0%nat.

Definition deliver (now : Z) (arrival : option LocationObject.t) (w : World)
    : World :=
  match arrival with
  | Some location => step (LocationUpdate location now) w
  | None => w
  end.

Fixpoint feed (arrivals : list (Z * option LocationObject.t)) (w : World)
    : nat * World :=
  match arrivals with
  | [] => (0%nat, w)
  | (now, arrival) :: rest =>
      let w1 := fireDue now w in
      let w2 := deliver now arrival w1 in
      let (n, w') := feed rest w2 in
      ((pauseEdge w w1 + pauseEdge w1 w2 + n)%nat, w')
  end.


End Loop.

(** ** Vocabulary of the auto-pause properties *)

Module AutoPause.
Import Tracking.

Definition optZ_eqb (a b : option Z) : bool :=
  match a, b with
  | Some x, Some y => Z.eqb x y
  | None, None => true
  | _, _ => false
  end.

(** A trip that runs (Active), with auto-pause enabled and the refs in
    step with the store. *)
Definition activeTrip (w : World) : bool :=
  Settings.autoPauseEnabled (settings w)
  && TripStore.isTracking (store w)
  && truthy (tripIdRef (refs w))
  && optZ_eqb (TripStore.currentTripId (store w)) (tripIdRef (refs w))
  && negb (TripStore.isPaused (store w))
  && negb (isPausedRef (refs w)).

(** A trip that is Paused, with auto-pause enabled, no timeout pending and
    the refs in step with the store. *)
Definition pausedTrip (w : World) : bool :=
  Settings.autoPauseEnabled (settings w)
  && TripStore.isTracking (store w)
  && TripStore.isPaused (store w)
  && isPausedRef (refs w)
  && match stationaryTimerRef (refs w) with None => true | Some _ => false end.

(** The speed that the sample processor computes for [location] is below
    (at or above) the auto-pause threshold, whatever the previous point. *)
Definition belowThreshold (cfg : Settings.t) (location : LocationObject.t)
    : Prop :=
  forall tripId previous,
    calculateSpeed (newPointOf tripId location) previous
    < autoPauseThresholdKmh cfg.


Definition allBelow (cfg : Settings.t)
    (arrivals : list (Z * option LocationObject.t)) : Prop :=
  Forall (fun a => match snd a with
                   | Some location => belowThreshold cfg location
                   | None => True
                   end) arrivals.



Definition delay : Z := (STATIONARY_CONFIG.duration * 1000)%Z.

End AutoPause.

(** ** Invariants of the loop *)

Module Invariant.
Import Tracking.

(** The recorded maximum speed is never negative, in the store and in
    every row of the table, and a current speed other than 0 comes with a
    last location. *)
Definition wellFormed (w : World) : Prop :=
  0 <= TripStore.maxSpeed (store w)
  /\ Forall (fun row => 0 <= Trip.maxSpeed row) (Database.trips (db w))
  /\ (TripStore.currentSpeed (store w) = 0
      \/ TripStore.lastLocation (store w) <> None).



End Invariant.

(** ** Concrete settings, environments and sample streams *)

Module Scenario.
Import Tracking Loop.

(** Auto-pause enabled, threshold 2 km/h. *)
Definition cfg : Settings.t :=
  {| Settings.unit := kmh; Settings.autoPauseEnabled := true;
     Settings.autoPauseThreshold := 2 |}.

Definition envOk : StartEnv :=
  {| foreground := granted; databaseAnswers := true; foregroundStarted := true |}.

Definition envLocationFails : StartEnv :=
  {| foreground := granted; databaseAnswers := true; foregroundStarted := false |}.

Definition envDenied : StartEnv :=
  {| foreground := denied; databaseAnswers := true; foregroundStarted := true |}.

(** A sample at a fixed place that reports [kmhTimes10 / 10] km/h. *)
Definition sample (kmhTimes10 : Z) (ms : Z) : LocationObject.t :=
  {| LocationObject.latitude := 238 / 10;
     LocationObject.longitude := 904 / 10;
     LocationObject.speed := Some (IZR kmhTimes10 / 36);
     LocationObject.altitude := None;
     LocationObject.accuracy := Some 5;
     LocationObject.timestamp := IZR ms |}.

(** A stored point at the same place, with a given device speed and
    timestamp. *)
Definition point (deviceSpeed : option R) (ms : R) : LocationPoint.t :=
  {| LocationPoint.tripId := 1;
     LocationPoint.latitude := 238 / 10;
     LocationPoint.longitude := 904 / 10;
     LocationPoint.speed := deviceSpeed;
     LocationPoint.altitude := None;
     LocationPoint.accuracy := Some 5;
     LocationPoint.timestamp := ms |}.

Definition idle : World := initialWorld cfg 0.

(** A trip started at time 0. *)
Definition tracking : World := step (Start envOk 0) idle.

(** 1 km/h every 500 ms from 0 to 5500 ms. *)
Definition steady : list (Z * option LocationObject.t) :=
  map (fun k => ((500 * Z.of_nat k)%Z, Some (sample 10 (500 * Z.of_nat k))))
      (seq 0 12).


(** The default settings of the application (auto-pause off), and a trip
    under them that has received one sample at 36 km/h at time 1000. *)
Definition defaults : Settings.t :=
  {| Settings.unit := kmh; Settings.autoPauseEnabled := false;
     Settings.autoPauseThreshold := 2 |}.

Definition moving : World :=
  step (LocationUpdate (sample 360 1000) 1000)
       (step (Start envOk 0) (initialWorld defaults 0)).

(** The trip after the steady stream: paused by the auto-pause. *)
Definition autoPaused : World := snd (feed steady tracking).

(** What a fresh process finds when the previous one left a trip Active:
    trip 7, started at [T], 500 m on record. *)
Definition persistedTrip (T : Z) (avg : R) : Trip.t :=
  {| Trip.id := 7; Trip.startTime := T; Trip.endTime := None;
     Trip.totalDistance := 500; Trip.maxSpeed := 40; Trip.avgSpeed := avg;
     Trip.status := active |}.

Definition afterRestart (T : Z) (avg : R) : World :=
  {| store := TripStore.initialState; refs := initialRefs 0;
     db := {| Database.trips := [persistedTrip T avg];
              Database.nextTripId := 8;
              Database.location_points := [] |};
     settings := cfg; callbackAvgSpeed := 0 |}.

End Scenario.

(** ** The Sample Processor as the specification words it (section 4.2) *)

Module Spec.

Definition fallbackSpeedKmh (current : LocationPoint.t)
    (previous : option LocationPoint.t) : R :=
  match previous with
  | Some p =>
      let deltaSeconds :=
        (LocationPoint.timestamp current - LocationPoint.timestamp p) / 1000 in
      if Rlt_dec 0 deltaSeconds
      then haversineDistance p current / deltaSeconds * (36 / 10)
      else 0
  | None => 0
  end.

Definition speedKmh (current : LocationPoint.t)
    (previous : option LocationPoint.t) : R :=
  let computed :=
    match LocationPoint.speed current with
    | Some deviceSpeed =>
        if Rge_dec deviceSpeed 0 then deviceSpeed * (36 / 10)
        else fallbackSpeedKmh current previous
    | None => fallbackSpeedKmh current previous
    end in
  if Rlt_dec computed 1 then 0 else computed.

Definition distanceIncrement (current : LocationPoint.t)
    (previous : option LocationPoint.t) : R :=
  match previous with
  | Some p =>
      if Rgt_dec (speedKmh current previous) 0
      then haversineDistance p current
      else 0
  | None => 0
  end.

End Spec.

(** * More of the code

    The functions of the same files that the properties above do not reach,
    with what is needed to state their properties. *)

From Stdlib Require String DecimalString Sorting.Permutation Sorting.Sorted.

(** ** services/speed-calculator: conversions, aggregates of a list of
    points, duration format *)

Definition kmhToMph (kmh : R) : R := kmh * CONVERSION.KMH_TO_MPH.

Definition mphToKmh (mph : R) : R := mph * CONVERSION.MPH_TO_KMH.

Definition metersToKm (meters : R) : R := meters * CONVERSION.METERS_TO_KM.

Definition metersToMiles (meters : R) : R := meters * CONVERSION.METERS_TO_MILES.

Definition calculateAverageSpeed (distance duration : R) : R :=
  if num_le duration 0 then 0
  else
    let hours := duration / 3600 in
    let km := distance / 1000 in
    km / hours.



(** The loop of [calculateMaxSpeed]: [previous] is [points[i - 1]], or
    [null] at [i = 0]. *)
Fixpoint maxSpeedLoop (previous : option LocationPoint.t)
    (rest : list LocationPoint.t) (maxSpeed : R) : R :=
  match rest with
  | [] => maxSpeed
  | point :: rest' =>
      let speed := calculateSpeed point previous in
      maxSpeedLoop (Some point) rest'
        (if num_gt speed maxSpeed then speed else maxSpeed)
  end.

Definition calculateMaxSpeed (points : list LocationPoint.t) : R :=
  match points with
  | [] => 0
  | _ => maxSpeedLoop None points 0
  end.


(** The last element of a list, if any. *)
Definition lastPoint (points : list LocationPoint.t) : option LocationPoint.t :=
  match rev points with
  | [] => None
  | point :: _ => Some point
  end.

(** [formatDuration] on a whole number of seconds, which is what every
    caller passes ([Math.floor] of a difference of times, or the store's
    [elapsedTime]). [%] of JavaScript is the remainder that takes the sign of
    the dividend, [Z.rem]; [Math.floor] of a quotient is [Z.div]. *)
Module Format.
Import String.
Local Open Scope string_scope.

(** [n.toString()] of an integer. *)
Definition toString (n : Z) : string :=
  DecimalString.NilZero.string_of_int (Z.to_int n).

Fixpoint repeatString (fill : string) (n : nat) : string :=
  match n with
  | O => ""
  | S n' => fill ++ repeatString fill n'
  end.

(** [s.padStart(targetLength, "0")]. *)
Definition padStart (targetLength : nat) (s : string) : string :=
  repeatString "0" (targetLength - String.length s) ++ s.

Definition formatDuration (seconds : Z) : string :=
  let hours := (seconds / 3600)%Z in
  let minutes := (Z.rem seconds 3600 / 60)%Z in
  let secs := Z.rem seconds 60 in
  if Z.ltb 0 hours
  then toString hours ++ ":" ++ padStart 2 (toString minutes)
       ++ ":" ++ padStart 2 (toString secs)
  else toString minutes ++ ":" ++ padStart 2 (toString secs).

(** The decimal digit [d] as a character, and a number below 100 written
    with exactly two digits. *)
Definition digit (d : Z) : Ascii.ascii :=
  Ascii.ascii_of_nat (48 + Z.to_nat d).

Definition twoDigits (n : Z) : string :=
  String (digit (n / 10)) (String (digit (n mod 10)) "").

Definition colon : string := ":".

End Format.

(** ** database/queries.ts: the other statements on [trips] and
    [location_points] *)

Module Query.

(** [UPDATE trips SET status = ?, end_time = COALESCE(?, end_time)
    WHERE id = ?], with [endTime] as [updateTripStatus] computes it. *)
Definition updateTripStatus (now : Z) (tripId : Z) (status : TripStatus)
    (d : Database.t) : Database.t :=
  let endTime := if TripStatus_eqb status completed then Some now else None in
  Database.updateRows tripId
    (fun row =>
       {| Trip.id := Trip.id row; Trip.startTime := Trip.startTime row;
          Trip.endTime :=
            match endTime with Some t => Some t | None => Trip.endTime row end;
          Trip.totalDistance := Trip.totalDistance row;
          Trip.maxSpeed := Trip.maxSpeed row;
          Trip.avgSpeed := Trip.avgSpeed row;
          Trip.status := status |})
    d.

(** [TripWithDuration]: a trip with its duration in seconds. *)
Record TripWithDuration : Type := mkTripWithDuration {
  trip : Trip.t;
  duration : Z
}.

(** [row.end_time ? Math.floor((row.end_time - row.start_time) / 1000) : 0] *)
Definition durationOf (row : Trip.t) : Z :=
  match Trip.endTime row with
  | Some end_time =>
      if truthy (Some end_time)
      then ((end_time - Trip.startTime row) / 1000)%Z
      else 0%Z
  | None => 0%Z
  end.

(** [ORDER BY start_time DESC], as an insertion sort. Among rows with the
    same start time, which SQL may return in any order, the one inserted
    first comes first. *)
Fixpoint insertByStartTime (row : Trip.t) (sorted : list Trip.t) : list Trip.t :=
  match sorted with
  | [] => [row]
  | first :: rest =>
      if Z.leb (Trip.startTime first) (Trip.startTime row)
      then row :: sorted
      else first :: insertByStartTime row rest
  end.

Definition orderByStartTimeDesc (rows : list Trip.t) : list Trip.t :=
  fold_right insertByStartTime [] rows.

Definition getAllTrips (d : Database.t) : list TripWithDuration :=
  map (fun row => {| trip := row; duration := durationOf row |})
      (orderByStartTimeDesc (Database.trips d)).

(** The points stored for a trip, in the order of their insertion. *)
Definition pointsOfTrip (tripId : Z) (d : Database.t) : list LocationPoint.t :=
  filter (fun point => Z.eqb (LocationPoint.tripId point) tripId)
         (Database.location_points d).

(** [SELECT COUNT( * ) FROM location_points WHERE trip_id = ?] *)
Definition getLocationPointCount (tripId : Z) (d : Database.t) : Z :=
  Z.of_nat (length (pointsOfTrip tripId d)).

(** [DELETE FROM location_points WHERE trip_id = ?] *)
Definition deleteLocationPointsForTrip (tripId : Z) (d : Database.t)
    : Database.t :=
  {| Database.trips := Database.trips d;
     Database.nextTripId := Database.nextTripId d;
     Database.location_points :=
       filter (fun point => negb (Z.eqb (LocationPoint.tripId point) tripId))
              (Database.location_points d) |}.

(** The key of [trips]: no two rows share an id, and every id is at least 1
    and below the counter of the column. *)
Definition wellKeyed (d : Database.t) : Prop :=
  NoDup (map Trip.id (Database.trips d))
  /\ (1 <= Database.nextTripId d)%Z
  /\ Forall (fun row => (1 <= Trip.id row < Database.nextTripId d)%Z)
            (Database.trips d).

(** The row that [createTrip] inserts. *)
Definition freshTrip (rowid now : Z) : Trip.t :=
  {| Trip.id := rowid; Trip.startTime := now; Trip.endTime := None;
     Trip.totalDistance := 0; Trip.maxSpeed := 0; Trip.avgSpeed := 0;
     Trip.status := active |}.

(** A row with the columns that [updateTripStats] was given replaced. *)
Definition withStats (totalDistance maxSpeed avgSpeed : option R)
    (row : Trip.t) : Trip.t :=
  {| Trip.id := Trip.id row; Trip.startTime := Trip.startTime row;
     Trip.endTime := Trip.endTime row;
     Trip.totalDistance :=
       match totalDistance with Some v => v | None => Trip.totalDistance row end;
     Trip.maxSpeed :=
       match maxSpeed with Some v => v | None => Trip.maxSpeed row end;
     Trip.avgSpeed :=
       match avgSpeed with Some v => v | None => Trip.avgSpeed row end;
     Trip.status := Trip.status row |}.

(** A row as [completeTrip] leaves it. *)
Definition completedAt (now : Z) (row : Trip.t) : Trip.t :=
  {| Trip.id := Trip.id row; Trip.startTime := Trip.startTime row;
     Trip.endTime := Some now;
     Trip.totalDistance := Trip.totalDistance row;
     Trip.maxSpeed := Trip.maxSpeed row;
     Trip.avgSpeed := Trip.avgSpeed row;
     Trip.status := completed |}.

End Query.

(** ** hooks/useTracking.ts: a session of orderly turns, and a relaunch *)

Module Session.
Import Tracking Loop.






End Session.

(** * Properties *)

(** ** Numbers and geodesy *)

Lemma num_lt_true x y : num_lt x y = true <-> x < y.
Proof. unfold num_lt; destruct (Rlt_dec x y); split; intros; try easy. Qed.

Lemma num_lt_false x y : num_lt x y = false <-> y <= x.
Proof. unfold num_lt; destruct (Rlt_dec x y); split; intros; try easy; lra. Qed.

Lemma num_le_true x y : num_le x y = true <-> x <= y.
Proof. unfold num_le; destruct (Rle_dec x y); split; intros; try easy. Qed.

Lemma num_le_false x y : num_le x y = false <-> y < x.
Proof. unfold num_le; destruct (Rle_dec x y); split; intros; try easy; lra. Qed.

Lemma atan2_nonneg y x : 0 <= y -> 0 <= x -> 0 <= atan2 y x.
Proof.
  intros Hy Hx. unfold atan2.
  destruct (Rlt_dec 0 x) as [Hpos | Hnpos].
  - assert (Hq : 0 <= y / x) by (apply Rmult_le_pos; [lra | left; now apply Rinv_0_lt_compat]).
    destruct Hq as [Hq | Hq].
    + left. rewrite <- atan_0. now apply atan_increasing.
    + rewrite <- Hq, atan_0. lra.
  - destruct (Rlt_dec x 0); [lra |].
    destruct (Rlt_dec 0 y); [pose proof PI_RGT_0; lra |].
    destruct (Rlt_dec y 0); lra.
Qed.

Lemma haversineCoords_nonneg a b c d : 0 <= haversineCoords a b c d.
Proof.
  unfold haversineCoords. cbv zeta.
  pose proof (atan2_nonneg _ _ (sqrt_pos (haversineA a b c d))
                (sqrt_pos (1 - haversineA a b c d))).
  nra.
Qed.

Lemma haversineA_sym a b c d : haversineA a b c d = haversineA c d a b.
Proof.
  unfold haversineA, toRadians. cbv zeta.
  replace ((c - a) * (PI / 180) / 2) with (- ((a - c) * (PI / 180) / 2)) by lra.
  replace ((d - b) * (PI / 180) / 2) with (- ((b - d) * (PI / 180) / 2)) by lra.
  rewrite !sin_neg. ring.
Qed.

Lemma haversineA_same a b : haversineA a b a b = 0.
Proof.
  unfold haversineA, toRadians. cbv zeta.
  replace ((a - a) * (PI / 180) / 2) with 0 by lra.
  replace ((b - b) * (PI / 180) / 2) with 0 by lra.
  rewrite sin_0. ring.
Qed.

Lemma atan2_0_1 : atan2 0 1 = 0.
Proof.
  unfold atan2. destruct (Rlt_dec 0 1); [| lra].
  replace (0 / 1) with 0 by lra. apply atan_0.
Qed.

Lemma haversineCoords_same a b : haversineCoords a b a b = 0.
Proof.
  unfold haversineCoords. cbv zeta.
  rewrite haversineA_same, Rminus_0_r, sqrt_0, sqrt_1, atan2_0_1. ring.
Qed.

Lemma haversineDistance_nonneg p q : 0 <= haversineDistance p q.
Proof. apply haversineCoords_nonneg. Qed.

Lemma haversineDistance_sym p q : haversineDistance p q = haversineDistance q p.
Proof.
  unfold haversineDistance, haversineCoords. cbv zeta.
  now rewrite (haversineA_sym (LocationPoint.latitude p)).
Qed.

Lemma haversineDistance_same_coords p q :
  LocationPoint.latitude p = LocationPoint.latitude q ->
  LocationPoint.longitude p = LocationPoint.longitude q ->
  haversineDistance p q = 0.
Proof.
  intros Hlat Hlon. unfold haversineDistance. rewrite Hlat, Hlon.
  apply haversineCoords_same.
Qed.

(** The argument of both square roots of [haversineDistance] is in their
    domain: [a] lies between 0 and 1 for all coordinates. *)
Lemma haversineA_range a b c d :
  0 <= haversineA a b c d <= 1.
Proof.
  unfold haversineA. cbv zeta.
  set (s := sin (toRadians (d - b) / 2)).
  set (x := toRadians a). set (y := toRadians c).
  replace (toRadians (c - a) / 2) with (y / 2 - x / 2)
    by (unfold x, y, toRadians; lra).
  assert (Hx : cos x = cos (x / 2 + x / 2)) by (f_equal; lra).
  assert (Hy : cos y = cos (y / 2 + y / 2)) by (f_equal; lra).
  rewrite Hx, Hy, !cos_plus, sin_minus.
  pose proof (sin2_cos2 (x / 2)) as Px. pose proof (sin2_cos2 (y / 2)) as Py.
  pose proof (sin2_cos2 (toRadians (d - b) / 2)) as Ps.
  unfold Rsqr in Px, Py, Ps. fold s in Ps.
  set (sx := sin (x / 2)) in *. set (cx := cos (x / 2)) in *.
  set (sy := sin (y / 2)) in *. set (cy := cos (y / 2)) in *.
  set (cs := cos (toRadians (d - b) / 2)) in *.
  assert (Hs : 0 <= s * s <= 1) by nra.
  (* a is a mean of two squares, each at most 1, with weights 1 - s^2, s^2 *)
  assert (E : (sy * cx - cy * sx) * (sy * cx - cy * sx)
              + (cx * cx - sx * sx) * (cy * cy - sy * sy) * s * s
              = (sy * cx - cy * sx) * (sy * cx - cy * sx) * (1 - s * s)
                + (cx * cy - sx * sy) * (cx * cy - sx * sy) * (s * s)).
  { ring. }
  rewrite E.
  assert (B1 : (sy * cx - cy * sx) * (sy * cx - cy * sx)
               + (cx * cy + sx * sy) * (cx * cy + sx * sy) = 1) by nra.
  assert (B2 : (cx * cy - sx * sy) * (cx * cy - sx * sy)
               + (sx * cy + cx * sy) * (sx * cy + cx * sy) = 1) by nra.
  set (u := (sy * cx - cy * sx) * (sy * cx - cy * sx)) in *.
  set (v := (cx * cy - sx * sy) * (cx * cy - sx * sy)) in *.
  assert (Hu : 0 <= u <= 1).
  { pose proof (Rle_0_sqr (sy * cx - cy * sx)) as Q1.
    pose proof (Rle_0_sqr (cx * cy + sx * sy)) as Q2.
    unfold Rsqr in Q1, Q2. fold u in Q1. lra. }
  assert (Hv : 0 <= v <= 1).
  { pose proof (Rle_0_sqr (cx * cy - sx * sy)) as Q1.
    pose proof (Rle_0_sqr (sx * cy + cx * sy)) as Q2.
    unfold Rsqr in Q1, Q2. fold v in Q1. lra. }
  clearbody u v. clear B1 B2 E.
  set (t := s * s) in *. clearbody t.
  split.
  - assert (0 <= u * (1 - t)) by (apply Rmult_le_pos; lra).
    assert (0 <= v * t) by (apply Rmult_le_pos; lra).
    lra.
  - assert (u * (1 - t) <= 1 * (1 - t)) by (apply Rmult_le_compat_r; lra).
    assert (v * t <= 1 * t) by (apply Rmult_le_compat_r; lra).
    lra.
Qed.

(** ** The sample processor *)

Ltac num_cases :=
  unfold num_gt, num_ge, num_lt, num_le in *;
  repeat match goal with
         | |- context [Rlt_dec ?x ?y] => destruct (Rlt_dec x y)
         | |- context [Rle_dec ?x ?y] => destruct (Rle_dec x y)
         | |- context [Rge_dec ?x ?y] => destruct (Rge_dec x y)
         | |- context [Rgt_dec ?x ?y] => destruct (Rgt_dec x y)
         | H : context [Rlt_dec ?x ?y] |- _ => destruct (Rlt_dec x y)
         | H : context [Rle_dec ?x ?y] |- _ => destruct (Rle_dec x y)
         | H : context [Rge_dec ?x ?y] |- _ => destruct (Rge_dec x y)
         | H : context [Rgt_dec ?x ?y] |- _ => destruct (Rgt_dec x y)
         end.

Lemma MS_TO_KMH_value : CONVERSION.MS_TO_KMH = 36 / 10.
Proof. reflexivity. Qed.

Lemma calculateSpeed_spec current previous :
  calculateSpeed current previous = Spec.speedKmh current previous.
Proof.
  unfold calculateSpeed, Spec.speedKmh, Spec.fallbackSpeedKmh, gpsProvidedSpeed,
    GPS_NOISE_THRESHOLD_KMH.
  rewrite MS_TO_KMH_value.
  destruct (LocationPoint.speed current) as [s |], previous as [p |];
    cbv zeta; num_cases; try reflexivity; try lra.
Qed.

Lemma calculateSpeed_floor current previous :
  calculateSpeed current previous = 0 \/ 1 <= calculateSpeed current previous.
Proof.
  unfold calculateSpeed, GPS_NOISE_THRESHOLD_KMH. cbv zeta.
  match goal with |- context [num_lt ?x 1] => generalize x end.
  intros x. unfold num_lt. destruct (Rlt_dec x 1); [now left | right; lra].
Qed.

Lemma calculateSpeed_nonneg current previous :
  0 <= calculateSpeed current previous.
Proof. destruct (calculateSpeed_floor current previous); lra. Qed.

Lemma calculateSpeedChecked_total current previous :
  calculateSpeedChecked current previous = Some (calculateSpeed current previous).
Proof.
  unfold calculateSpeedChecked, calculateSpeed, checkedDiv. cbv zeta.
  destruct (gpsProvidedSpeed current); [reflexivity |].
  destruct previous as [p |]; [| reflexivity].
  set (timeDiff :=
         (LocationPoint.timestamp current - LocationPoint.timestamp p) / 1000).
  destruct (num_gt timeDiff 0) eqn:Hgt; [| reflexivity].
  apply num_lt_true in Hgt.
  destruct (Req_dec_T timeDiff 0) as [Hz | Hnz]; [lra | reflexivity].
Qed.

Lemma calculateSpeed_no_time_passed current p :
  gpsProvidedSpeed current = None ->
  LocationPoint.timestamp current - LocationPoint.timestamp p <= 0 ->
  calculateSpeed current (Some p) = 0.
Proof.
  intros Hgps Hdt. unfold calculateSpeed, GPS_NOISE_THRESHOLD_KMH. rewrite Hgps.
  cbv zeta. num_cases; lra.
Qed.

Lemma distanceIncrementOf_spec current previous :
  Tracking.distanceIncrementOf previous current (calculateSpeed current previous)
  = Spec.distanceIncrement current previous.
Proof.
  unfold Tracking.distanceIncrementOf, Spec.distanceIncrement.
  rewrite <- calculateSpeed_spec.
  destruct previous; [| reflexivity]. num_cases; try reflexivity; lra.
Qed.

Lemma distanceIncrementOf_nonneg previous current v :
  0 <= Tracking.distanceIncrementOf previous current v.
Proof.
  unfold Tracking.distanceIncrementOf. destruct previous; [| lra].
  destruct (num_gt v 0); [apply haversineDistance_nonneg | lra].
Qed.

(** ** The handlers, field by field *)

Import Tracking.

Lemma handleStationaryDetection_store now v w :
  store (handleStationaryDetection now v w) = store w.
Proof.
  unfold handleStationaryDetection.
  destruct (Settings.autoPauseEnabled (settings w)); cbn; [| reflexivity].
  destruct (isPausedRef (refs w)) eqn:Hp; [reflexivity |].
  destruct (num_lt v _).
  - destruct (stationaryTimerRef (refs w)); reflexivity.
  - destruct (stationaryTimerRef (refs w)); cbn; rewrite Hp; reflexivity.
Qed.

Lemma handleStationaryDetection_db now v w :
  db (handleStationaryDetection now v w) = db w.
Proof.
  unfold handleStationaryDetection.
  destruct (_ || _); [reflexivity |].
  destruct (num_lt v _).
  - destruct (stationaryTimerRef (refs w)); reflexivity.
  - destruct (stationaryTimerRef (refs w)); cbn;
      destruct (_ && _); reflexivity.
Qed.

Lemma handleStationaryDetection_refs now v w :
  refs (handleStationaryDetection now v w)
  = setStationaryTimer
      (stationaryTimerRef (refs (handleStationaryDetection now v w))) (refs w).
Proof.
  unfold handleStationaryDetection.
  destruct (refs w) eqn:Hr.
  destruct (_ || _); [cbn; now rewrite Hr |].
  destruct (num_lt v _).
  - destruct stationaryTimerRef0; cbn; now rewrite Hr.
  - destruct stationaryTimerRef0; cbn; rewrite ?Hr; cbn;
      destruct (_ && _); cbn; now rewrite ?Hr.
Qed.

(** The store after a location update: untouched without a trip or while
    paused, and otherwise [updateStore] at the computed speed and increment. *)
Lemma handleLocationUpdate_store location now w :
  store (handleLocationUpdate location now w) =
  match tripIdRef (refs w) with
  | Some tripId =>
      if truthy (Some tripId) && negb (isPausedRef (refs w)) then
        let newPoint := newPointOf tripId location in
        let speed := calculateSpeed newPoint (lastLocationRef (refs w)) in
        updateStore now newPoint speed
          (distanceIncrementOf (lastLocationRef (refs w)) newPoint speed)
          (store w)
      else store w
  | None => store w
  end.
Proof.
  unfold handleLocationUpdate.
  destruct (tripIdRef (refs w)) as [tripId |]; [| reflexivity].
  destruct (truthy (Some tripId)); [| reflexivity].
  destruct (isPausedRef (refs w)); [reflexivity |].
  cbn -[calculateSpeed handleStationaryDetection updateStore].
  now rewrite handleStationaryDetection_store.
Qed.

Lemma updateStore_currentSpeed now p v d s :
  TripStore.currentSpeed (updateStore now p v d s) = v.
Proof. unfold updateStore. cbv zeta. destruct (num_gt d 0); reflexivity. Qed.

Lemma updateStore_maxSpeed now p v d s :
  TripStore.maxSpeed (updateStore now p v d s) = Rmax (TripStore.maxSpeed s) v.
Proof. unfold updateStore. cbv zeta. destruct (num_gt d 0); reflexivity. Qed.

Lemma updateStore_totalDistance now p v d s :
  0 <= d ->
  TripStore.totalDistance (updateStore now p v d s) = TripStore.totalDistance s + d.
Proof.
  intros Hd. unfold updateStore. cbv zeta.
  destruct (num_gt d 0) eqn:Hgt; cbn; [reflexivity |].
  apply num_lt_false in Hgt. lra.
Qed.

Lemma updateStore_isPaused now p v d s :
  TripStore.isPaused (updateStore now p v d s) = TripStore.isPaused s.
Proof. unfold updateStore. cbv zeta. destruct (num_gt d 0); reflexivity. Qed.

Lemma updateStore_isTracking now p v d s :
  TripStore.isTracking (updateStore now p v d s) = TripStore.isTracking s.
Proof. unfold updateStore. cbv zeta. destruct (num_gt d 0); reflexivity. Qed.

Lemma updateStore_currentTripId now p v d s :
  TripStore.currentTripId (updateStore now p v d s) = TripStore.currentTripId s.
Proof. unfold updateStore. cbv zeta. destruct (num_gt d 0); reflexivity. Qed.

(** C1. For every raw sample and optional previous accepted point, the speed
    is the device speed times 3.6 when it is present and not negative,
    otherwise distance over time when a previous point exists and the time
    delta is positive, otherwise 0; below 1.0 it is clamped to 0; the distance
    increment is the haversine distance when the clamped speed is positive
    and a previous point exists, and 0 otherwise. The division is never by
    zero, the speed never negative, and a time delta that is zero or negative
    gives speed 0 and increment 0. [handleLocationUpdate] puts exactly this
    speed and this increment into the store of a trip that is not paused. *)
Theorem sample_processor_speed_and_increment :
  forall (current : LocationPoint.t) (previous : option LocationPoint.t),
    calculateSpeed current previous = Spec.speedKmh current previous
    /\ distanceIncrementOf previous current (calculateSpeed current previous)
       = Spec.distanceIncrement current previous
    /\ calculateSpeedChecked current previous
       = Some (calculateSpeed current previous)
    /\ 0 <= calculateSpeed current previous
    /\ (forall p,
          previous = Some p ->
          gpsProvidedSpeed current = None ->
          LocationPoint.timestamp current - LocationPoint.timestamp p <= 0 ->
          calculateSpeed current previous = 0
          /\ distanceIncrementOf previous current
               (calculateSpeed current previous) = 0)
    /\ (forall (w : World) (location : LocationObject.t) (now tripId : Z),
          tripIdRef (refs w) = Some tripId ->
          tripId <> 0%Z ->
          isPausedRef (refs w) = false ->
          current = newPointOf tripId location ->
          previous = lastLocationRef (refs w) ->
          let w' := handleLocationUpdate location now w in
          TripStore.currentSpeed (store w') = Spec.speedKmh current previous
          /\ TripStore.totalDistance (store w')
             = TripStore.totalDistance (store w)
               + Spec.distanceIncrement current previous).
Proof.
  intros current previous.
  split; [apply calculateSpeed_spec |].
  split; [apply distanceIncrementOf_spec |].
  split; [apply calculateSpeedChecked_total |].
  split; [apply calculateSpeed_nonneg |].
  split.
  - intros p -> Hgps Hdt.
    rewrite (calculateSpeed_no_time_passed _ _ Hgps Hdt). split; [reflexivity |].
    unfold distanceIncrementOf. num_cases; [lra | reflexivity].
  - intros w location now tripId Hid Hnz Hp -> ->. cbv zeta.
    rewrite handleLocationUpdate_store, Hid, Hp.
    assert (Ht : truthy (Some tripId) = true).
    { cbn. apply negb_true_iff, Z.eqb_neq, Hnz. }
    rewrite Ht. cbn [andb negb]. cbv zeta.
    rewrite updateStore_currentSpeed, updateStore_totalDistance
      by apply distanceIncrementOf_nonneg.
    now rewrite distanceIncrementOf_spec, calculateSpeed_spec.
Qed.

(** C1 on a duplicate timestamp: the previous point reported 20 m/s, the
    current one reports no speed and carries the same timestamp. *)
Lemma sample_processor_speed_and_increment_witness :
  let current := Scenario.point None 1000 in
  let previous := Scenario.point (Some 20) 1000 in
  calculateSpeed current (Some previous) = 0
  /\ distanceIncrementOf (Some previous) current
       (calculateSpeed current (Some previous)) = 0
  /\ calculateSpeedChecked current (Some previous) = Some 0.
Proof.
  cbv zeta.
  destruct (sample_processor_speed_and_increment (Scenario.point None 1000)
              (Some (Scenario.point (Some 20) 1000)))
    as (_ & _ & Hchecked & _ & Hskew & _).
  destruct (Hskew _ eq_refl eq_refl ltac:(cbn; lra)) as [Hspeed Hinc].
  split; [exact Hspeed | split; [exact Hinc |]].
  rewrite Hchecked. now rewrite Hspeed.
Defined.

(** C8. The haversine distance is symmetric and is zero for identical
    points; so for two consecutive samples with the same coordinates, device
    speed absent and a positive time delta, the computed speed is 0 and the
    distance increment is 0, whatever device speed the previous sample
    reported. *)
Theorem haversine_symmetric_and_zero_on_same_point :
  (forall a b : LocationPoint.t, haversineDistance a b = haversineDistance b a)
  /\ (forall a : LocationPoint.t, haversineDistance a a = 0)
  /\ (forall current previous : LocationPoint.t,
        LocationPoint.latitude current = LocationPoint.latitude previous ->
        LocationPoint.longitude current = LocationPoint.longitude previous ->
        LocationPoint.speed current = None ->
        LocationPoint.timestamp previous < LocationPoint.timestamp current ->
        calculateSpeed current (Some previous) = 0
        /\ distanceIncrementOf (Some previous) current
             (calculateSpeed current (Some previous)) = 0).
Proof.
  split; [exact haversineDistance_sym |].
  split; [intros a; now apply haversineDistance_same_coords |].
  intros current previous Hlat Hlon Hspeed Hdt.
  assert (Hs : calculateSpeed current (Some previous) = 0).
  { unfold calculateSpeed, gpsProvidedSpeed, GPS_NOISE_THRESHOLD_KMH.
    rewrite Hspeed. cbv zeta.
    rewrite (haversineDistance_same_coords previous current) by congruence.
    unfold Rdiv. rewrite !Rmult_0_l.
    num_cases; lra. }
  rewrite Hs. split; [reflexivity |].
  unfold distanceIncrementOf. num_cases; [lra | reflexivity].
Qed.

(** C8 on two samples at the same place one second apart, the earlier one
    reporting 20 m/s. *)
Lemma haversine_symmetric_and_zero_on_same_point_witness :
  let current := Scenario.point None 2000 in
  let previous := Scenario.point (Some 20) 1000 in
  haversineDistance previous current = haversineDistance current previous
  /\ calculateSpeed current (Some previous) = 0
  /\ distanceIncrementOf (Some previous) current
       (calculateSpeed current (Some previous)) = 0.
Proof.
  cbv zeta.
  destruct haversine_symmetric_and_zero_on_same_point as (Hsym & _ & Hsame).
  split; [apply Hsym |].
  exact (Hsame (Scenario.point None 2000) (Scenario.point (Some 20) 1000)
           eq_refl eq_refl eq_refl ltac:(cbn; lra)).
Defined.



(** ** Running totals *)

Import Loop.

Lemma syncRefs_store w : store (syncRefs w) = store w.
Proof. reflexivity. Qed.

Lemma syncRefs_db w : db (syncRefs w) = db w.
Proof. reflexivity. Qed.

Lemma updateElapsedTime_totalDistance now s :
  TripStore.totalDistance (TripStore.updateElapsedTime now s)
  = TripStore.totalDistance s.
Proof.
  unfold TripStore.updateElapsedTime.
  destruct (TripStore.tripStartTime s); [| reflexivity].
  destruct (_ && _); reflexivity.
Qed.

Lemma updateElapsedTime_maxSpeed now s :
  TripStore.maxSpeed (TripStore.updateElapsedTime now s) = TripStore.maxSpeed s.
Proof.
  unfold TripStore.updateElapsedTime.
  destruct (TripStore.tripStartTime s); [| reflexivity].
  destruct (_ && _); reflexivity.
Qed.

Lemma updateElapsedTime_isTracking now s :
  TripStore.isTracking (TripStore.updateElapsedTime now s)
  = TripStore.isTracking s.
Proof.
  unfold TripStore.updateElapsedTime.
  destruct (TripStore.tripStartTime s); [| reflexivity].
  destruct (_ && _); reflexivity.
Qed.

Lemma elapsedTimeTick_totalDistance now w :
  TripStore.totalDistance (store (elapsedTimeTick now w))
  = TripStore.totalDistance (store w).
Proof.
  unfold elapsedTimeTick.
  destruct (_ && _); [| reflexivity].
  destruct (_ && _); [destruct (TripStore.lastLocation (store w)) |];
    cbn; apply updateElapsedTime_totalDistance.
Qed.

Lemma elapsedTimeTick_maxSpeed now w :
  TripStore.maxSpeed (store (elapsedTimeTick now w))
  = TripStore.maxSpeed (store w)
  \/ TripStore.maxSpeed (store (elapsedTimeTick now w))
     = Rmax (TripStore.maxSpeed (store w)) 0.
Proof.
  unfold elapsedTimeTick.
  destruct (_ && _); [| now left].
  destruct (_ && _); [destruct (TripStore.lastLocation (store w)) |];
    cbn; rewrite updateElapsedTime_maxSpeed; auto.
Qed.

Lemma elapsedTimeTick_isTracking now w :
  TripStore.isTracking (store (elapsedTimeTick now w))
  = TripStore.isTracking (store w).
Proof.
  unfold elapsedTimeTick.
  destruct (_ && _); [| reflexivity].
  destruct (_ && _); [destruct (TripStore.lastLocation (store w)) |];
    cbn; apply updateElapsedTime_isTracking.
Qed.






(** ** Auto-pause *)

Import AutoPause.

Lemma step_unfold e w : step e w = syncRefs (handle e w).
Proof. reflexivity. Qed.

Lemma handleStationaryDetection_settings now v w :
  settings (handleStationaryDetection now v w) = settings w.
Proof.
  unfold handleStationaryDetection.
  destruct (_ || _); [reflexivity |].
  destruct (num_lt v _).
  - destruct (stationaryTimerRef (refs w)); reflexivity.
  - destruct (stationaryTimerRef (refs w)); cbn; destruct (_ && _); reflexivity.
Qed.

Lemma handle_settings e w : settings (handle e w) = settings w.
Proof.
  destruct e as [env now | now | | | location now | | now | now | now |];
    cbn [handle]; [| | | | | | | | | reflexivity].
  - unfold startTracking.
    destruct (negb (isGranted _)); [reflexivity |].
    destruct (negb (databaseAnswers _)); [reflexivity |].
    destruct (Database.createTrip now (db w)).
    destruct (negb (foregroundStarted _)); reflexivity.
  - reflexivity.
  - reflexivity.
  - reflexivity.
  - unfold handleLocationUpdate.
    destruct (tripIdRef (refs w)); [| reflexivity].
    destruct (negb _); [reflexivity |].
    destruct (isPausedRef (refs w)); [reflexivity |].
    cbn -[handleStationaryDetection calculateSpeed].
    now rewrite handleStationaryDetection_settings.
  - destruct (stationaryTimerRef (refs w)); [| reflexivity].
    unfold stationaryTimeout. destruct (_ && _); reflexivity.
  - unfold elapsedTimeTick.
    destruct (_ && _); [| reflexivity].
    destruct (_ && _); [destruct (TripStore.lastLocation (store w)) |]; reflexivity.
  - unfold checkGpsLoss.
    destruct (negb _); [reflexivity |].
    destruct (isPausedRef (refs w)); [reflexivity |].
    destruct (_ && _); reflexivity.
  - unfold checkForActiveTrip.
    destruct (Database.getActiveTrip (db w)); [| reflexivity].
    destruct (negb _); reflexivity.
Qed.

Lemma step_settings e w : settings (step e w) = settings w.
Proof. unfold step. cbn [handle]. apply handle_settings. Qed.

(** The timer after [handleStationaryDetection] on a trip that is not
    paused: armed once when the speed is below the threshold, cleared when
    it is not. *)
Lemma handleStationaryDetection_timer now v w :
  Settings.autoPauseEnabled (settings w) = true ->
  isPausedRef (refs w) = false ->
  stationaryTimerRef (refs (handleStationaryDetection now v w))
  = if num_lt v (autoPauseThresholdKmh (settings w))
    then match stationaryTimerRef (refs w) with
         | None => Some (now + delay)%Z
         | Some due => Some due
         end
    else None.
Proof.
  intros Hen Hp. unfold handleStationaryDetection. rewrite Hen, Hp. cbn [negb orb].
  destruct (num_lt v _).
  - destruct (stationaryTimerRef (refs w)) eqn:Ht; [exact Ht | reflexivity].
  - destruct (stationaryTimerRef (refs w)) eqn:Ht; cbn; rewrite Hp; cbn;
      [reflexivity | exact Ht].
Qed.

Lemma handleLocationUpdate_timer location now w tripId :
  tripIdRef (refs w) = Some tripId ->
  truthy (Some tripId) = true ->
  isPausedRef (refs w) = false ->
  Settings.autoPauseEnabled (settings w) = true ->
  stationaryTimerRef (refs (handleLocationUpdate location now w))
  = if num_lt (calculateSpeed (newPointOf tripId location) (lastLocationRef (refs w)))
              (autoPauseThresholdKmh (settings w))
    then match stationaryTimerRef (refs w) with
         | None => Some (now + delay)%Z
         | Some due => Some due
         end
    else None.
Proof.
  intros Hid Htruthy Hp Hen. unfold handleLocationUpdate.
  rewrite Hid, Htruthy, Hp. cbn [negb].
  cbn -[handleStationaryDetection calculateSpeed updateStore].
  now rewrite handleStationaryDetection_timer.
Qed.

Lemma optZ_eqb_eq a b : optZ_eqb a b = true -> a = b.
Proof.
  destruct a, b; cbn; try discriminate; try reflexivity.
  intros H. apply Z.eqb_eq in H. now subst.
Qed.

Lemma optZ_eqb_refl a : optZ_eqb a a = true.
Proof. destruct a; cbn; [apply Z.eqb_refl | reflexivity]. Qed.

Lemma activeTrip_inv w :
  activeTrip w = true ->
  Settings.autoPauseEnabled (settings w) = true
  /\ TripStore.isTracking (store w) = true
  /\ truthy (tripIdRef (refs w)) = true
  /\ TripStore.currentTripId (store w) = tripIdRef (refs w)
  /\ TripStore.isPaused (store w) = false
  /\ isPausedRef (refs w) = false.
Proof.
  unfold activeTrip. intros H.
  repeat (apply andb_true_iff in H as [H ?]).
  repeat split; try assumption.
  - now apply optZ_eqb_eq.
  - now apply negb_true_iff.
  - now apply negb_true_iff.
Qed.

(** A sample that reaches a running trip leaves it running, and sets the
    timer by the computed speed alone. *)
Lemma step_location_active location now w :
  activeTrip w = true ->
  exists v,
    activeTrip (step (LocationUpdate location now) w) = true
    /\ (forall tripId, tripIdRef (refs w) = Some tripId ->
          v = calculateSpeed (newPointOf tripId location) (lastLocationRef (refs w)))
    /\ stationaryTimerRef (refs (step (LocationUpdate location now) w))
       = if num_lt v (autoPauseThresholdKmh (settings w))
         then match stationaryTimerRef (refs w) with
              | None => Some (now + delay)%Z
              | Some due => Some due
              end
         else None.
Proof.
  intros Hact.
  destruct (activeTrip_inv w Hact) as (Hen & Htr & Htruthy & Heq & Hp & Hpr).
  destruct (tripIdRef (refs w)) as [tripId |] eqn:Hid; [| discriminate].
  exists (calculateSpeed (newPointOf tripId location) (lastLocationRef (refs w))).
  split; [| split].
  - unfold activeTrip. rewrite step_settings, Hen. rewrite step_unfold.
    cbn [syncRefs withRefs refs store handle
         tripIdRef isPausedRef].
    rewrite handleLocationUpdate_store, Hid, Htruthy, Hpr. cbn [andb negb]. cbv zeta.
    rewrite updateStore_isTracking, updateStore_currentTripId, updateStore_isPaused.
    rewrite Htr, Heq, Hp, Htruthy, optZ_eqb_refl. reflexivity.
  - intros tripId' [= ->]. reflexivity.
  - rewrite step_unfold. cbn [syncRefs withRefs refs handle stationaryTimerRef].
    now apply handleLocationUpdate_timer.
Qed.

Lemma step_location_below location now w :
  activeTrip w = true ->
  belowThreshold (settings w) location ->
  activeTrip (step (LocationUpdate location now) w) = true
  /\ stationaryTimerRef (refs (step (LocationUpdate location now) w))
     = match stationaryTimerRef (refs w) with
       | None => Some (now + delay)%Z
       | Some due => Some due
       end.
Proof.
  intros Hact Hbelow.
  destruct (step_location_active location now w Hact) as (v & Hact' & Hv & Ht).
  split; [exact Hact' |]. rewrite Ht.
  destruct (activeTrip_inv w Hact) as (_ & _ & Htruthy & _).
  destruct (tripIdRef (refs w)) as [tripId |] eqn:Hid; [| discriminate].
  rewrite (Hv tripId eq_refl).
  now rewrite (proj2 (num_lt_true _ _) (Hbelow tripId _)).
Qed.


(** The timeout that finds the trip running pauses it. *)
Lemma step_timeout_active w due :
  activeTrip w = true ->
  stationaryTimerRef (refs w) = Some due ->
  pausedTrip (step StationaryTimeout w) = true.
Proof.
  intros Hact Hdue.
  destruct (activeTrip_inv w Hact) as (Hen & Htr & Htruthy & Heq & Hp & Hpr).
  unfold pausedTrip. rewrite step_unfold. cbn [handle]. rewrite Hdue.
  unfold stationaryTimeout. rewrite Htruthy, Hpr. cbn.
  now rewrite Hen, Htr.
Qed.

Lemma handleLocationUpdate_paused location now w :
  isPausedRef (refs w) = true ->
  handleLocationUpdate location now w = withRefs (setLastGpsUpdate now) w.
Proof.
  intros Hp. unfold handleLocationUpdate. rewrite Hp.
  destruct (tripIdRef (refs w)); [| reflexivity].
  destruct (negb _); reflexivity.
Qed.

Lemma pausedTrip_inv w :
  pausedTrip w = true ->
  Settings.autoPauseEnabled (settings w) = true
  /\ TripStore.isTracking (store w) = true
  /\ TripStore.isPaused (store w) = true
  /\ isPausedRef (refs w) = true
  /\ stationaryTimerRef (refs w) = None.
Proof.
  unfold pausedTrip. intros H.
  repeat (apply andb_true_iff in H as [H ?]).
  repeat split; try assumption.
  destruct (stationaryTimerRef (refs w)); [discriminate | reflexivity].
Qed.

(** A sample that reaches a paused trip changes nothing in the store. *)
Lemma step_location_paused location now w :
  pausedTrip w = true ->
  pausedTrip (step (LocationUpdate location now) w) = true
  /\ store (step (LocationUpdate location now) w) = store w.
Proof.
  intros Hpaused.
  destruct (pausedTrip_inv w Hpaused) as (Hen & Htr & Hp & Hpr & Ht).
  rewrite step_unfold. cbn [handle]. rewrite handleLocationUpdate_paused by assumption.
  split; [| reflexivity].
  unfold pausedTrip. cbn. now rewrite Hen, Htr, Hp, Ht.
Qed.

Lemma pauseEdge_same w : pauseEdge w w = 0%nat.
Proof. unfold pauseEdge. destruct (TripStore.isPaused (store w)); reflexivity. Qed.

Lemma pauseEdge_from_paused w w' :
  TripStore.isPaused (store w) = true -> pauseEdge w w' = 0%nat.
Proof. unfold pauseEdge. now intros ->. Qed.

Lemma pauseEdge_to_running w w' :
  TripStore.isPaused (store w') = false -> pauseEdge w w' = 0%nat.
Proof. unfold pauseEdge. intros ->. now rewrite andb_false_r. Qed.

Lemma feed_cons now arrival rest w :
  feed ((now, arrival) :: rest) w =
  ((pauseEdge w (fireDue now w)
    + pauseEdge (fireDue now w) (deliver now arrival (fireDue now w))
    + fst (feed rest (deliver now arrival (fireDue now w))))%nat,
   snd (feed rest (deliver now arrival (fireDue now w)))).
Proof. cbn. now destruct (feed rest _). Qed.


Lemma feed_settings arrivals w : settings (snd (feed arrivals w)) = settings w.
Proof.
  revert w. induction arrivals as [| [now arrival] rest IH]; intros w.
  - reflexivity.
  - rewrite feed_cons. cbn [snd]. rewrite IH.
    assert (Hf : settings (fireDue now w) = settings w).
    { unfold fireDue. destruct (stationaryTimerRef (refs w)); [| reflexivity].
      destruct (Z.leb _ _); [apply step_settings | reflexivity]. }
    destruct arrival; cbn [deliver]; [rewrite step_settings |]; exact Hf.
Qed.

(** Once paused, no arrival changes the pause: nothing is counted. *)
Lemma feed_paused arrivals w :
  pausedTrip w = true ->
  fst (feed arrivals w) = 0%nat /\ pausedTrip (snd (feed arrivals w)) = true.
Proof.
  revert w. induction arrivals as [| [now arrival] rest IH]; intros w Hpaused.
  - now split.
  - destruct (pausedTrip_inv w Hpaused) as (Hen & Htr & Hp & Hpr & Ht).
    rewrite feed_cons. cbn [fst snd].
    assert (Hf : fireDue now w = w) by (unfold fireDue; now rewrite Ht).
    rewrite Hf, pauseEdge_same, (pauseEdge_from_paused w) by assumption.
    assert (Hd : pausedTrip (deliver now arrival w) = true).
    { destruct arrival; [apply step_location_paused |]; assumption. }
    destruct (IH _ Hd) as [-> Hfin]. now split.
Qed.

(** A running trip with the timer armed, fed samples below the threshold:
    it is paused once, at the first arrival at or after the due time. *)
Lemma feed_armed arrivals w due :
  activeTrip w = true ->
  stationaryTimerRef (refs w) = Some due ->
  allBelow (settings w) arrivals ->
  fst (feed arrivals w)
  = (if existsb (fun a => Z.leb due (fst a)) arrivals then 1%nat else 0%nat)
  /\ (if existsb (fun a => Z.leb due (fst a)) arrivals
      then pausedTrip (snd (feed arrivals w))
      else activeTrip (snd (feed arrivals w))) = true.
Proof.
  revert w. induction arrivals as [| [now arrival] rest IH];
    intros w Hact Hdue Hbelow.
  - now split.
  - destruct (activeTrip_inv w Hact) as (Hen & Htr & Htruthy & Heq & Hp & Hpr).
    inversion Hbelow as [| ? ? Hhead Hrest]; subst. cbn [snd] in Hhead.
    rewrite feed_cons. cbn [fst snd existsb].
    assert (Hf : fireDue now w
                 = if Z.leb due now then step StationaryTimeout w else w)
      by (unfold fireDue; now rewrite Hdue).
    rewrite Hf.
    destruct (Z.leb due now) eqn:Hle; cbn [orb].
    + pose proof (step_timeout_active w due Hact Hdue) as Hpaused.
      destruct (pausedTrip_inv _ Hpaused) as (_ & _ & Hp' & _ & _).
      assert (He1 : pauseEdge w (step StationaryTimeout w) = 1%nat)
        by (unfold pauseEdge; now rewrite Hp, Hp').
      rewrite He1, pauseEdge_from_paused by assumption.
      assert (Hd : pausedTrip (deliver now arrival (step StationaryTimeout w)) = true).
      { destruct arrival; [apply step_location_paused |]; assumption. }
      destruct (feed_paused rest _ Hd) as [-> Hfin]. now split.
    + rewrite pauseEdge_same.
      destruct arrival as [location |]; cbn [deliver].
      * destruct (step_location_below location now w Hact Hhead) as [Hact' Ht'].
        rewrite Hdue in Ht'.
        destruct (activeTrip_inv _ Hact') as (_ & _ & _ & _ & Hp' & _).
        rewrite pauseEdge_to_running by assumption.
        destruct (IH _ Hact' Ht') as [-> Hfin]; [now rewrite step_settings |].
        now split.
      * rewrite pauseEdge_same.
        destruct (IH _ Hact Hdue Hrest) as [-> Hfin]. now split.
Qed.





Lemma calculateSpeed_device s tripId location previous :
  LocationObject.speed location = Some s ->
  0 <= s ->
  calculateSpeed (newPointOf tripId location) previous
  = if num_lt (s * CONVERSION.MS_TO_KMH) GPS_NOISE_THRESHOLD_KMH
    then 0 else s * CONVERSION.MS_TO_KMH.
Proof.
  intros Hs Hpos. unfold calculateSpeed, gpsProvidedSpeed, num_ge. cbn.
  rewrite Hs. now rewrite (proj2 (num_le_true 0 s) Hpos).
Qed.

Lemma sample_computed k ms tripId previous :
  (10 <= k)%Z ->
  calculateSpeed (newPointOf tripId (Scenario.sample k ms)) previous = IZR k / 10.
Proof.
  intros Hk. apply IZR_le in Hk.
  rewrite (calculateSpeed_device (IZR k / 36)); [| reflexivity | lra].
  rewrite MS_TO_KMH_value. unfold GPS_NOISE_THRESHOLD_KMH.
  destruct (num_lt _ 1) eqn:Hlt; [apply num_lt_true in Hlt; lra | lra].
Qed.

Lemma sample_1kmh_below ms : belowThreshold Scenario.cfg (Scenario.sample 10 ms).
Proof.
  intros tripId previous. rewrite sample_computed by lia.
  unfold autoPauseThresholdKmh. cbn. lra.
Qed.



(** ** Samples while paused *)

(** No location update changes [isPaused], in any state: the branch
    "Auto-resume if was auto-paused" of [handleStationaryDetection] is behind
    the test [isPausedRef.current] at its top, and [handleLocationUpdate]
    returns before it when the trip is paused. *)
Lemma handleLocationUpdate_isPaused location now w :
  TripStore.isPaused (store (handleLocationUpdate location now w))
  = TripStore.isPaused (store w).
Proof.
  rewrite handleLocationUpdate_store.
  destruct (tripIdRef (refs w)); [| reflexivity].
  destruct (_ && _); [| reflexivity].
  cbv zeta. apply updateStore_isPaused.
Qed.

(** A running trip held below the threshold until the timer is due ends
    up paused. *)
Lemma feed_below_until_due w t1 first rest :
  activeTrip w = true ->
  stationaryTimerRef (refs w) = None ->
  belowThreshold (settings w) first ->
  allBelow (settings w) rest ->
  existsb (fun a => Z.leb (t1 + delay) (fst a)) rest = true ->
  pausedTrip (snd (feed ((t1, Some first) :: rest) w)) = true.
Proof.
  intros Hact Hnone Hfirst Hrest Hdue.
  rewrite feed_cons. cbn [snd].
  assert (Hf : fireDue t1 w = w) by (unfold fireDue; now rewrite Hnone).
  rewrite Hf. cbn [deliver].
  destruct (step_location_below first t1 w Hact Hfirst) as [Hact1 Htimer].
  rewrite Hnone in Htimer.
  destruct (feed_armed rest _ _ Hact1 Htimer) as [_ Hfin].
  - now rewrite step_settings.
  - now rewrite Hdue in Hfin.
Qed.

Lemma steady_tail_below : allBelow Scenario.cfg (tl Scenario.steady).
Proof. repeat constructor; apply sample_1kmh_below. Qed.

Lemma autoPaused_is_paused : pausedTrip Scenario.autoPaused = true.
Proof.
  exact (feed_below_until_due Scenario.tracking 0 (Scenario.sample 10 0)
           (tl Scenario.steady) eq_refl eq_refl (sample_1kmh_below 0)
           steady_tail_below eq_refl).
Qed.

(** C4, on the code. A trip paused by the auto-pause receives a sample at
    36 km/h, far above the threshold of 2 km/h: the store is left as it was
    and the trip stays Paused. The specification has it resume. In no state
    at all does a location update change [isPaused]. *)
Theorem auto_resume_does_not_happen :
  let sample := Scenario.sample 360 6000 in
  let after := step (LocationUpdate sample 6000) Scenario.autoPaused in
  pausedTrip Scenario.autoPaused = true
  /\ (forall tripId previous,
        calculateSpeed (newPointOf tripId sample) previous = 36)
  /\ autoPauseThresholdKmh (settings Scenario.autoPaused) = 2
  /\ store after = store Scenario.autoPaused
  /\ TripStore.isPaused (store after) = true
  /\ (forall location now w,
        TripStore.isPaused (store (handleLocationUpdate location now w))
        = TripStore.isPaused (store w)).
Proof.
  cbv zeta.
  pose proof autoPaused_is_paused as Hpaused.
  destruct (step_location_paused (Scenario.sample 360 6000) 6000 _ Hpaused)
    as [Hafter Hstore].
  destruct (pausedTrip_inv _ Hpaused) as (_ & _ & Hp & _ & _).
  split; [exact Hpaused | split; [| split; [| split; [| split]]]].
  - intros tripId previous. rewrite sample_computed by lia. lra.
  - unfold Scenario.autoPaused. rewrite feed_settings. reflexivity.
  - exact Hstore.
  - now rewrite Hstore.
  - exact handleLocationUpdate_isPaused.
Qed.

(** ** What every reachable state satisfies *)

Lemma updateRows_trips tripId f d :
  Database.trips (Database.updateRows tripId f d)
  = map (fun row => if Z.eqb (Trip.id row) tripId then f row else row)
        (Database.trips d).
Proof. reflexivity. Qed.

Lemma Forall_updateRows (P : Trip.t -> Prop) tripId f d :
  (forall row, P row -> P (f row)) ->
  Forall P (Database.trips d) ->
  Forall P (Database.trips (Database.updateRows tripId f d)).
Proof.
  intros Hf Hall. rewrite updateRows_trips. apply Forall_map.
  eapply Forall_impl; [| exact Hall].
  intros row Hrow. cbn. destruct (Z.eqb _ _); auto.
Qed.

Lemma getActiveTrip_In d row :
  Database.getActiveTrip d = Some row ->
  In row (Database.trips d) /\ Trip.status row = active.
Proof.
  unfold Database.getActiveTrip. intros H. apply find_some in H as [Hin Hst].
  split; [assumption |]. now destruct (Trip.status row).
Qed.


Import Invariant.

Lemma wellFormed_handleLocationUpdate location now w :
  wellFormed w -> wellFormed (handleLocationUpdate location now w).
Proof.
  intros (Hmax & Hrows & Hloc).
  unfold handleLocationUpdate.
  destruct (tripIdRef (refs w)) as [tripId |]; [| repeat split; assumption].
  destruct (negb _); [repeat split; assumption |].
  destruct (isPausedRef (refs w)); [repeat split; assumption |].
  cbv zeta.
  unfold wellFormed.
  cbn -[handleStationaryDetection calculateSpeed updateStore
        Database.updateTripStats Database.addLocationPoint].
  rewrite handleStationaryDetection_store, handleStationaryDetection_db.
  cbn -[calculateSpeed updateStore Database.updateTripStats
        Database.addLocationPoint].
  rewrite updateStore_maxSpeed, updateStore_currentSpeed.
  split; [| split].
  - eapply Rle_trans; [exact Hmax | apply Rmax_l].
  - unfold Database.updateTripStats.
    apply Forall_updateRows; [| exact Hrows].
    intros row _. cbn.
    eapply Rle_trans; [apply calculateSpeed_nonneg | apply Rmax_r].
  - right. unfold updateStore. cbv zeta.
    destruct (num_gt _ 0); cbn; discriminate.
Qed.

Lemma wellFormed_handle e w : wellFormed w -> wellFormed (handle e w).
Proof.
  intros Hw. pose proof Hw as (Hmax & Hrows & Hloc).
  destruct e as [env now | now | | | location now | | now | now | now |];
    cbn [handle]; [| | | | | | | | | exact Hw].
  - unfold startTracking.
    destruct (negb (isGranted _)); [exact Hw |].
    destruct (negb (databaseAnswers _)); [exact Hw |].
    cbn. destruct (negb (foregroundStarted _)); cbn.
    + repeat split; cbn; [lra | | exact Hloc].
      apply Forall_app. split; [exact Hrows |].
      constructor; [cbn; lra | constructor].
    + repeat split; cbn; [lra | | exact Hloc].
      apply Forall_app. split; [exact Hrows |].
      constructor; [cbn; lra | constructor].
  - unfold stopTracking, wellFormed. cbn.
    split; [lra | split; [| now left]].
    destruct (tripIdRef (refs w)) as [tripId |]; [| exact Hrows].
    destruct (negb _); cbn; [| exact Hrows].
    apply Forall_updateRows; [| exact Hrows]. intros row Hrow. exact Hrow.
  - exact Hw.
  - exact Hw.
  - now apply wellFormed_handleLocationUpdate.
  - destruct (stationaryTimerRef (refs w)); [| exact Hw].
    unfold stationaryTimeout. destruct (_ && _); exact Hw.
  - unfold elapsedTimeTick, wellFormed.
    destruct (_ && _); [| exact Hw].
    assert (Hel : forall s,
      TripStore.currentSpeed (TripStore.updateElapsedTime now s)
      = TripStore.currentSpeed s
      /\ TripStore.lastLocation (TripStore.updateElapsedTime now s)
         = TripStore.lastLocation s).
    { intros s. unfold TripStore.updateElapsedTime.
      destruct (TripStore.tripStartTime s); [| auto].
      destruct (_ && _); auto. }
    destruct (_ && _); [destruct (TripStore.lastLocation (store w)) eqn:Hl |];
      cbn; rewrite ?updateElapsedTime_maxSpeed.
    + split; [eapply Rle_trans; [exact Hmax | apply Rmax_l] |].
      split; [exact Hrows | now left].
    + destruct (Hel (store w)) as [-> ->]. rewrite Hl.
      split; [exact Hmax | split; [exact Hrows | exact Hloc]].
    + destruct (Hel (store w)) as [-> ->]. auto.
  - unfold checkGpsLoss.
    destruct (negb _); [exact Hw |].
    destruct (isPausedRef (refs w)); [exact Hw |].
    destruct (_ && _); exact Hw.
  - unfold checkForActiveTrip.
    destruct (Database.getActiveTrip (db w)) as [row |] eqn:Hrow; [| exact Hw].
    destruct (negb _); [| exact Hw].
    apply getActiveTrip_In in Hrow as [Hin _].
    unfold wellFormed. cbn. split; [| split; [exact Hrows | exact Hloc]].
    rewrite Forall_forall in Hrows. now apply Hrows.
Qed.

Lemma Reachable_wellFormed cfg t0 w : Reachable cfg t0 w -> wellFormed w.
Proof.
  induction 1 as [| e w Hreach IH].
  - unfold wellFormed. cbn. split; [lra | split; [constructor | now left]].
  - apply wellFormed_handle, IH.
Qed.

(** ** The speed-decay watchdog *)

Lemma elapsedTimeTick_db now w : db (elapsedTimeTick now w) = db w.
Proof.
  unfold elapsedTimeTick.
  destruct (_ && _); [| reflexivity].
  destruct (_ && _); [destruct (TripStore.lastLocation (store w)) |]; reflexivity.
Qed.

Lemma elapsedTimeTick_decay now w location :
  TripStore.isTracking (store w) = true ->
  TripStore.isPaused (store w) = false ->
  (3000 < now - lastGpsUpdateRef (refs w))%Z ->
  0 < TripStore.currentSpeed (store w) ->
  TripStore.lastLocation (store w) = Some location ->
  store (elapsedTimeTick now w)
  = TripStore.updateLocation location 0
      (TripStore.updateElapsedTime now (store w)).
Proof.
  intros Htr Hp Hgap Hspeed Hloc. unfold elapsedTimeTick.
  rewrite Htr, Hp, Hloc. cbn [andb negb].
  rewrite (proj2 (Z.ltb_lt _ _) Hgap).
  unfold num_gt. rewrite (proj2 (num_lt_true _ _) Hspeed). reflexivity.
Qed.

(** C7. When the speed-decay watchdog fires (a running trip, more than 3 s
    since the last sample, current speed above 0) the current speed becomes
    0, and the tick changes neither [totalDistance] nor [maxSpeed], in the
    store or in the table: the update that zeroes the speed writes only
    [currentSpeed], [lastLocation] (the same), [gpsStatus] and [accuracy]. *)
Theorem speed_decay_keeps_totals :
  forall (cfg : Settings.t) (t0 : Z) (w : World) (now : Z),
    Reachable cfg t0 w ->
    let w' := step (ElapsedTimeTick now) w in
    TripStore.totalDistance (store w') = TripStore.totalDistance (store w)
    /\ TripStore.maxSpeed (store w') = TripStore.maxSpeed (store w)
    /\ db w' = db w
    /\ (TripStore.isTracking (store w) = true ->
        TripStore.isPaused (store w) = false ->
        (3000 < now - lastGpsUpdateRef (refs w))%Z ->
        0 < TripStore.currentSpeed (store w) ->
        TripStore.currentSpeed (store w') = 0)
    /\ (forall location,
          TripStore.lastLocation (store w) = Some location ->
          TripStore.updateLocation location 0 (store w)
          = {| TripStore.isTracking := TripStore.isTracking (store w);
               TripStore.isPaused := TripStore.isPaused (store w);
               TripStore.currentSpeed := 0;
               TripStore.currentTripId := TripStore.currentTripId (store w);
               TripStore.totalDistance := TripStore.totalDistance (store w);
               TripStore.avgSpeed := TripStore.avgSpeed (store w);
               TripStore.maxSpeed := TripStore.maxSpeed (store w);
               TripStore.elapsedTime := TripStore.elapsedTime (store w);
               TripStore.lastLocation := TripStore.lastLocation (store w);
               TripStore.gpsStatus := acquired;
               TripStore.accuracy := LocationPoint.accuracy location;
               TripStore.tripStartTime := TripStore.tripStartTime (store w) |}).
Proof.
  intros cfg t0 w now Hreach. cbv zeta.
  destruct (Reachable_wellFormed cfg t0 w Hreach) as (Hmax & _ & Hloc).
  rewrite step_unfold, syncRefs_store, syncRefs_db. cbn [handle].
  rewrite elapsedTimeTick_totalDistance, elapsedTimeTick_db.
  split; [reflexivity | split; [| split; [reflexivity | split]]].
  - destruct (elapsedTimeTick_maxSpeed now w) as [-> | ->];
      [reflexivity | now apply Rmax_left].
  - intros Htr Hp Hgap Hspeed.
    destruct Hloc as [Hzero | Hsome]; [lra |].
    destruct (TripStore.lastLocation (store w)) as [location |] eqn:Hl;
      [| contradiction].
    now rewrite (elapsedTimeTick_decay now w location).
  - intros location Hl. unfold TripStore.updateLocation. cbv zeta.
    rewrite Hl. now rewrite Rmax_left.
Qed.

Lemma Reachable_step cfg t0 e w :
  Reachable cfg t0 w -> Reachable cfg t0 (step e w).
Proof. intros H. unfold step. now do 2 apply Reachable_handle. Qed.

Lemma moving_reachable : Reachable Scenario.defaults 0 Scenario.moving.
Proof.
  unfold Scenario.moving. do 2 apply Reachable_step. apply Reachable_init.
Qed.

Lemma moving_store :
  TripStore.isTracking (store Scenario.moving) = true
  /\ TripStore.isPaused (store Scenario.moving) = false
  /\ TripStore.currentSpeed (store Scenario.moving) = 36.
Proof.
  set (started := step (Start Scenario.envOk 0) (initialWorld Scenario.defaults 0)).
  assert (E : store Scenario.moving
              = store (handleLocationUpdate (Scenario.sample 360 1000) 1000 started))
    by reflexivity.
  rewrite E, handleLocationUpdate_store.
  replace (tripIdRef (refs started)) with (Some 1%Z) by reflexivity.
  replace (isPausedRef (refs started)) with false by reflexivity.
  cbn [truthy Z.eqb negb andb]. cbv zeta.
  rewrite updateStore_isTracking, updateStore_isPaused, updateStore_currentSpeed.
  rewrite sample_computed by lia.
  repeat split; lra.
Qed.

(** C7 on a trip that is moving at 36 km/h when the samples stop at time
    1000: the tick at time 5000 brings the speed to 0 and keeps the totals. *)
Lemma speed_decay_keeps_totals_witness :
  Reachable Scenario.defaults 0 Scenario.moving
  /\ TripStore.currentSpeed (store Scenario.moving) = 36
  /\ TripStore.currentSpeed
       (store (step (ElapsedTimeTick 5000) Scenario.moving)) = 0
  /\ TripStore.totalDistance
       (store (step (ElapsedTimeTick 5000) Scenario.moving))
     = TripStore.totalDistance (store Scenario.moving)
  /\ TripStore.maxSpeed (store (step (ElapsedTimeTick 5000) Scenario.moving))
     = TripStore.maxSpeed (store Scenario.moving).
Proof.
  destruct moving_store as (Htr & Hp & Hspeed).
  destruct (speed_decay_keeps_totals Scenario.defaults 0 Scenario.moving 5000
              moving_reachable) as (Hd & Hm & _ & Hzero & _).
  split; [exact moving_reachable | split; [exact Hspeed |]].
  split; [| split; [exact Hd | exact Hm]].
  apply Hzero; [exact Htr | exact Hp | reflexivity | rewrite Hspeed; lra].
Defined.

(** ** Restoring a persisted trip *)

Lemma checkForActiveTrip_store now w row :
  TripStore.isTracking (store w) = false ->
  Database.getActiveTrip (db w) = Some row ->
  store (checkForActiveTrip now w)
  = TripStore.restoreTracking now (Trip.id row) (Trip.startTime row)
      (Trip.totalDistance row) (Trip.maxSpeed row) (Trip.avgSpeed row) (store w).
Proof.
  intros Htr Hrow. unfold checkForActiveTrip. now rewrite Hrow, Htr.
Qed.

(** C5, as the code has it. Restoring a persisted Active trip (start time
    [T], 500 m) at wall clock [T + 600000] recomputes the elapsed time from
    the clock, 600 s, and takes over distance and maximum speed; the average
    speed right after the restore is the persisted one, as passed to
    [restoreTracking]; it is recomputed from the clock by the next tick of
    the elapsed-time timer, and is 3.0 km/h when that tick sees 600 s. *)
Theorem restore_recomputes_elapsed_time :
  forall (T tripId : Z) (maxSpeed avgSpeed : R) (s : TripStore.t),
    let restored :=
      TripStore.restoreTracking (T + 600000) tripId T 500 maxSpeed avgSpeed s in
    TripStore.isTracking restored = true
    /\ TripStore.isPaused restored = false
    /\ TripStore.elapsedTime restored = 600%Z
    /\ TripStore.totalDistance restored = 500
    /\ TripStore.maxSpeed restored = maxSpeed
    /\ TripStore.avgSpeed restored = avgSpeed
    /\ (T <> 0%Z ->
        forall now, ((now - T) / 1000 = 600)%Z ->
          TripStore.elapsedTime (TripStore.updateElapsedTime now restored) = 600%Z
          /\ TripStore.avgSpeed (TripStore.updateElapsedTime now restored) = 3)
    /\ (forall (w : World) (row : Trip.t),
          TripStore.isTracking (store w) = false ->
          Database.getActiveTrip (db w) = Some row ->
          Trip.startTime row = T -> Trip.totalDistance row = 500 ->
          Trip.id row = tripId -> Trip.maxSpeed row = maxSpeed ->
          Trip.avgSpeed row = avgSpeed ->
          store (checkForActiveTrip (T + 600000) w)
          = TripStore.restoreTracking (T + 600000) tripId T 500 maxSpeed avgSpeed
              (store w)).
Proof.
  intros T tripId maxSpeed avgSpeed s. cbv zeta.
  repeat (split; [reflexivity |]).
  split; [| repeat (split; [reflexivity |]); split].
  - cbn. replace (T + 600000 - T)%Z with 600000%Z by lia. reflexivity.
  - intros HT now Hnow. unfold TripStore.updateElapsedTime. cbn.
    rewrite (proj2 (Z.eqb_neq T 0) HT). cbn. rewrite Hnow.
    split; [reflexivity |].
    unfold TripStore.average, num_gt.
    rewrite (proj2 (num_lt_true 0 (600 / 3600))) by lra. lra.
  - intros w row Htr Hrow <- <- <- <- <-.
    now apply checkForActiveTrip_store.
Qed.

(** C5 at [T = 1000]: restore at 601000, tick at 601000. *)
Lemma restore_recomputes_elapsed_time_witness :
  let restored :=
    TripStore.restoreTracking 601000 7 1000 500 40 0 TripStore.initialState in
  TripStore.elapsedTime restored = 600%Z
  /\ TripStore.avgSpeed restored = 0
  /\ TripStore.avgSpeed (TripStore.updateElapsedTime 601000 restored) = 3.
Proof.
  cbv zeta.
  destruct (restore_recomputes_elapsed_time 1000 7 40 0 TripStore.initialState)
    as (_ & _ & He & _ & _ & Ha & Htick & _).
  split; [exact He | split; [exact Ha |]].
  exact (proj2 (Htick ltac:(discriminate) 601000%Z eq_refl)).
Defined.

(** C5 as stated fails: a persisted trip whose stored average is 0 has,
    right after the restore at [T + 600000], an average speed of 0 and not
    the 3.0 km/h that 500 m in 600 s would give. *)
Lemma restore_does_not_recompute_avgSpeed :
  let w := checkForActiveTrip (1000 + 600000) (Scenario.afterRestart 1000 0) in
  TripStore.isTracking (store w) = true
  /\ TripStore.totalDistance (store w) = 500
  /\ TripStore.elapsedTime (store w) = 600%Z
  /\ TripStore.avgSpeed (store w) = 0
  /\ TripStore.avgSpeed (store w) <> 3.
Proof.
  cbv zeta. repeat (split; [reflexivity |]).
  replace (TripStore.avgSpeed _) with 0 by reflexivity. lra.
Qed.

(** ** One open trip *)
















(** ** A start that fails *)

(** C9, on the code. The permission is granted and the location source
    fails to start: [startTracking] returns [false] and the tracking state is
    idle again, but the row that [createTrip] inserted stays in the table
    with status [active]: [getActiveTrip] finds it, and the next
    [checkForActiveTrip] resumes it as a trip in progress. The specification
    has the new trip discarded. Without the permission nothing is created. *)
Theorem failed_start_leaves_the_trip_active :
  let result := startTracking Scenario.envLocationFails 0 Scenario.idle in
  let w := syncRefs (snd result) in
  fst result = false
  /\ TripStore.isTracking (store w) = false
  /\ TripStore.currentTripId (store w) = None
  /\ tripIdRef (refs w) = None
  /\ map Trip.status (Database.trips (db w)) = [active]
  /\ option_map Trip.id (Database.getActiveTrip (db w)) = Some 1%Z
  /\ TripStore.isTracking (store (checkForActiveTrip 1000 w)) = true
  /\ TripStore.currentTripId (store (checkForActiveTrip 1000 w)) = Some 1%Z
  /\ startTracking Scenario.envDenied 0 Scenario.idle = (false, Scenario.idle).
Proof. cbv zeta. repeat split; reflexivity. Qed.

(** * Further properties *)

(** ** Unit conversions *)

(** X1. Converting km/h to mph and back (or mph to km/h and back) does not
    return the speed: the two factors multiply to 0.99999720514, so the
    round trip loses a little less than 3 millionths of the value. The
    factor for metres to miles is the product of the other two, so a
    distance shown in miles agrees with the speed conversion. *)
Theorem conversions_round_trip :
  forall v : R,
    mphToKmh (kmhToMph v) = v * (99999720514 / 100000000000)
    /\ kmhToMph (mphToKmh v) = v * (99999720514 / 100000000000)
    /\ Rabs (mphToKmh (kmhToMph v) - v) <= 3 / 1000000 * Rabs v
    /\ (v <> 0 -> mphToKmh (kmhToMph v) <> v)
    /\ metersToMiles v = kmhToMph (metersToKm v).
Proof.
  intros v.
  unfold mphToKmh, kmhToMph, metersToMiles, metersToKm,
    CONVERSION.KMH_TO_MPH, CONVERSION.MPH_TO_KMH, CONVERSION.METERS_TO_KM,
    CONVERSION.METERS_TO_MILES.
  split; [lra | split; [lra | split; [| split; [| lra]]]].
  - replace (v * (621371 / 1000000) * (160934 / 100000) - v)
      with (v * (- (279486 / 100000000000))) by lra.
    rewrite Rabs_mult, (Rabs_left (- _)) by lra.
    pose proof (Rabs_pos v). nra.
  - intros Hv Heq. apply Hv. nra.
Qed.

(** X1 at 100 km/h. *)
Lemma conversions_round_trip_witness :
  mphToKmh (kmhToMph 100) <> 100 /\ kmhToMph 100 = 621371 / 10000.
Proof.
  destruct (conversions_round_trip 100) as (_ & _ & _ & Hne & _).
  split; [apply Hne; lra |].
  unfold kmhToMph, CONVERSION.KMH_TO_MPH. lra.
Defined.

(** ** Average speed *)

(** X2. [calculateAverageSpeed] never divides by zero: a duration that is
    zero or negative gives 0, a positive one gives distance over duration
    times 3.6, not negative for a distance that is not negative. Both
    averages of the store are this function: [updateElapsedTime] applies it
    to the whole seconds elapsed, [updateDistance] to the elapsed
    milliseconds over 1000, not rounded. *)
Theorem average_speed_is_guarded :
  forall distance duration : R,
    (duration <= 0 -> calculateAverageSpeed distance duration = 0)
    /\ (0 < duration ->
        calculateAverageSpeed distance duration
        = distance / duration * CONVERSION.MS_TO_KMH)
    /\ (0 <= distance -> 0 <= calculateAverageSpeed distance duration)
    /\ (forall (now start : Z) (s : TripStore.t),
          TripStore.tripStartTime s = Some start -> start <> 0%Z ->
          TripStore.isTracking s = true -> TripStore.isPaused s = false ->
          TripStore.totalDistance s = distance ->
          IZR ((now - start) / 1000) = duration ->
          TripStore.avgSpeed (TripStore.updateElapsedTime now s)
          = calculateAverageSpeed distance duration)
    /\ (forall (now start : Z) (added : R) (s : TripStore.t),
          TripStore.tripStartTime s = Some start -> start <> 0%Z ->
          TripStore.totalDistance s + added = distance ->
          IZR (now - start) / 1000 = duration ->
          TripStore.avgSpeed (TripStore.updateDistance now added s)
          = calculateAverageSpeed distance duration).
Proof.
  intros distance duration.
  assert (Hshared : forall d t,
            TripStore.average d (t / 3600) = calculateAverageSpeed d t).
  { intros d t. unfold TripStore.average, calculateAverageSpeed. cbv zeta.
    num_cases; try reflexivity; lra. }
  split; [| split; [| split; [| split]]].
  - intros Hd. unfold calculateAverageSpeed.
    now rewrite (proj2 (num_le_true _ _) Hd).
  - intros Hd. unfold calculateAverageSpeed.
    rewrite (proj2 (num_le_false _ _) Hd). cbv zeta.
    rewrite MS_TO_KMH_value. field. lra.
  - intros Hdist. unfold calculateAverageSpeed. cbv zeta.
    destruct (num_le duration 0) eqn:Hd; [lra |].
    apply num_le_false in Hd.
    apply Rmult_le_pos; [lra |].
    left. apply Rinv_0_lt_compat. lra.
  - intros now start s Hstart Hnz Htr Hp <- <-.
    unfold TripStore.updateElapsedTime. rewrite Hstart, Htr, Hp. cbn.
    rewrite (proj2 (Z.eqb_neq start 0) Hnz). cbn. apply Hshared.
  - intros now start added s Hstart Hnz <- <-.
    unfold TripStore.updateDistance. rewrite Hstart. cbn.
    rewrite (proj2 (Z.eqb_neq start 0) Hnz). cbn. apply Hshared.
Qed.

(** X2 on 500 m in 600 s, and on the tick of a trip half a second old. *)
Lemma average_speed_is_guarded_witness :
  calculateAverageSpeed 500 600 = 3
  /\ calculateAverageSpeed 500 0 = 0
  /\ TripStore.avgSpeed
       (TripStore.updateElapsedTime 1500
          (TripStore.updateDistance 1500 500
             (TripStore.startTracking 1000 1 TripStore.initialState))) = 0.
Proof.
  destruct (average_speed_is_guarded 500 600) as (_ & Hpos & _).
  destruct (average_speed_is_guarded 500 0) as (Hzero & _ & _ & Htick & _).
  split; [rewrite Hpos by lra; rewrite MS_TO_KMH_value; lra |].
  split; [apply Hzero; lra |].
  rewrite (Htick 1500%Z 1000%Z); try reflexivity; [apply Hzero; lra | discriminate | ].
  cbn. lra.
Defined.

(** ** Aggregates of a list of points *)

Lemma lastPoint_snoc points p : lastPoint (points ++ [p]) = Some p.
Proof. unfold lastPoint. now rewrite rev_app_distr. Qed.

Lemma lastPoint_cons a b points :
  lastPoint (a :: b :: points) = lastPoint (b :: points).
Proof.
  destruct (exists_last (l := b :: points)) as (front & p & Heq);
    [discriminate |].
  rewrite Heq, app_comm_cons. now rewrite !lastPoint_snoc.
Qed.








Lemma maxSpeedLoop_snoc previous rest p m :
  maxSpeedLoop previous (rest ++ [p]) m
  = Rmax (maxSpeedLoop previous rest m)
         (calculateSpeed p (match lastPoint rest with
                            | Some q => Some q
                            | None => previous
                            end)).
Proof.
  revert previous m. induction rest as [| a rest IH]; intros previous m.
  - cbn -[calculateSpeed]. unfold Rmax, num_gt, num_lt.
    destruct (Rlt_dec m _), (Rle_dec m _); try reflexivity; lra.
  - cbn -[calculateSpeed lastPoint]. rewrite IH.
    destruct rest as [| b rest'].
    + reflexivity.
    + rewrite lastPoint_cons.
      destruct (exists_last (l := b :: rest')) as (front & r & Heq);
        [discriminate |].
      rewrite Heq, lastPoint_snoc. reflexivity.
Qed.

Lemma calculateMaxSpeed_loop points :
  calculateMaxSpeed points = maxSpeedLoop None points 0.
Proof. destruct points; reflexivity. Qed.

Lemma calculateMaxSpeed_snoc points p :
  calculateMaxSpeed (points ++ [p])
  = Rmax (calculateMaxSpeed points) (calculateSpeed p (lastPoint points)).
Proof.
  rewrite !calculateMaxSpeed_loop, maxSpeedLoop_snoc.
  now destruct (lastPoint points).
Qed.

(** X4. [calculateMaxSpeed] is 0 for no points, and in general either 0 or
    at least the noise threshold of 1 km/h; it is at least the speed computed
    for every point of the list from its predecessor, and when it is not 0 it
    is the speed of one of them; a further point at the end makes it the
    maximum of the old value and that point's speed. *)
Theorem max_speed_of_points :
  forall points : list LocationPoint.t,
    (calculateMaxSpeed points = 0 \/ 1 <= calculateMaxSpeed points)
    /\ (forall front p back,
          points = front ++ p :: back ->
          calculateSpeed p (lastPoint front) <= calculateMaxSpeed points)
    /\ (calculateMaxSpeed points = 0
        \/ exists front p back,
             points = front ++ p :: back
             /\ calculateMaxSpeed points = calculateSpeed p (lastPoint front))
    /\ (forall p,
          calculateMaxSpeed (points ++ [p])
          = Rmax (calculateMaxSpeed points)
                 (calculateSpeed p (lastPoint points))).
Proof.
  intros points.
  assert (Hatt : calculateMaxSpeed points = 0
                 \/ exists front p back,
                      points = front ++ p :: back
                      /\ calculateMaxSpeed points
                         = calculateSpeed p (lastPoint front)).
  { induction points as [| p points IH] using rev_ind; [now left |].
    rewrite calculateMaxSpeed_snoc. unfold Rmax.
    destruct (Rle_dec _ _).
    - right. exists points, p, []. auto.
    - destruct IH as [Hz | (front & q & back & Heq & Hmax)]; [now left |].
      right. exists front, q, (back ++ [p]). split; [| exact Hmax].
      rewrite Heq, <- app_assoc. reflexivity. }
  split; [| split; [| split; [exact Hatt | apply calculateMaxSpeed_snoc]]].
  - destruct Hatt as [Hz | (front & p & back & _ & ->)]; [now left |].
    apply calculateSpeed_floor.
  - clear Hatt.
    induction points as [| q points IH] using rev_ind; intros front p back Heq.
    + destruct front; discriminate.
    + rewrite calculateMaxSpeed_snoc.
      induction back as [| r back' _] using rev_ind.
      * apply app_inj_tail in Heq as [-> ->]. apply Rmax_r.
      * rewrite app_comm_cons, app_assoc in Heq.
        apply app_inj_tail in Heq as [Hpts _].
        eapply Rle_trans; [apply (IH front p back' Hpts) | apply Rmax_l].
Qed.

(** X4 on two points at the same place: the second one reports 20 m/s. *)
Lemma max_speed_of_points_witness :
  let points := [Scenario.point None 0; Scenario.point (Some 20) 1000] in
  calculateSpeed (Scenario.point (Some 20) 1000)
    (lastPoint [Scenario.point None 0])
  <= calculateMaxSpeed points.
Proof.
  exact (proj1 (proj2 (max_speed_of_points
                         [Scenario.point None 0; Scenario.point (Some 20) 1000]))
           [Scenario.point None 0] (Scenario.point (Some 20) 1000) [] eq_refl).
Defined.

(** ** Duration format *)

Lemma padStart_two_digits n :
  (0 <= n < 100)%Z ->
  Format.padStart 2 (Format.toString n) = Format.twoDigits n.
Proof.
  intros Hn.
  assert (Hk : exists k : nat, n = Z.of_nat k /\ (k < 100)%nat).
  { exists (Z.to_nat n). split; lia. }
  destruct Hk as (k & -> & Hk).
  do 100 (destruct k as [| k]; [reflexivity |]).
  lia.
Qed.

(** X5. For a duration that is not negative, [formatDuration] shows hours,
    minutes and seconds that add up to it, with minutes and seconds below 60
    and always written with two digits (the minutes with as many as they
    need when no hour is shown); the hours appear from 3600 s on. A negative
    duration is shown without hours, whatever its size. *)
Theorem formatDuration_parts :
  forall seconds : Z,
    let hours := (seconds / 3600)%Z in
    let minutes := (Z.rem seconds 3600 / 60)%Z in
    let secs := Z.rem seconds 60 in
    ((0 <= seconds)%Z ->
     (hours * 3600 + minutes * 60 + secs = seconds)%Z
     /\ (0 <= minutes < 60)%Z
     /\ (0 <= secs < 60)%Z
     /\ Format.formatDuration seconds
        = if Z.ltb seconds 3600
          then String.append (Format.toString minutes)
                 (String.append Format.colon (Format.twoDigits secs))
          else String.append (Format.toString hours)
                 (String.append Format.colon
                    (String.append (Format.twoDigits minutes)
                       (String.append Format.colon (Format.twoDigits secs)))))
    /\ ((seconds < 0)%Z ->
        Format.formatDuration seconds
        = String.append (Format.toString minutes)
            (String.append Format.colon
               (Format.padStart 2 (Format.toString secs)))).
Proof.
  intros seconds. cbv zeta. split.
  - intros Hpos.
    rewrite !Z.rem_mod_nonneg by lia.
    pose proof (Z.mod_pos_bound seconds 3600 ltac:(lia)) as Hm.
    pose proof (Z.mod_pos_bound seconds 60 ltac:(lia)) as Hs.
    assert (Hmin : (0 <= seconds mod 3600 / 60 < 60)%Z).
    { split; [apply Z.div_pos; lia | apply Z.div_lt_upper_bound; lia]. }
    assert (Hsum : (seconds / 3600 * 3600 + seconds mod 3600 / 60 * 60
                    + seconds mod 60 = seconds)%Z).
    { pose proof (Z.div_mod seconds 3600 ltac:(lia)) as H1.
      pose proof (Z.div_mod (seconds mod 3600) 60 ltac:(lia)) as H2.
      assert (H3 : ((seconds mod 3600) mod 60 = seconds mod 60)%Z).
      { apply Z.mod_mod_divide. exists 60%Z. reflexivity. }
      lia. }
    repeat split; try lia.
    unfold Format.formatDuration. cbv zeta.
    rewrite !Z.rem_mod_nonneg by lia.
    rewrite !padStart_two_digits by lia.
    destruct (Z.ltb seconds 3600) eqn:Hlt.
    + apply Z.ltb_lt in Hlt.
      rewrite (Z.div_small seconds 3600) by lia. reflexivity.
    + apply Z.ltb_ge in Hlt.
      assert (Hh : (0 < seconds / 3600)%Z)
        by (apply Z.div_str_pos; lia).
      rewrite (proj2 (Z.ltb_lt _ _) Hh). reflexivity.
  - intros Hneg. unfold Format.formatDuration. cbv zeta.
    assert (Hh : (seconds / 3600 < 0)%Z)
      by (apply Z.div_lt_upper_bound; lia).
    rewrite (proj2 (Z.ltb_ge _ _)) by lia. reflexivity.
Qed.

(** X5 on 3725 s, which is 1:02:05, and on a trip that "ended" two hours
    before it started. *)
Lemma formatDuration_parts_witness :
  Format.formatDuration 3725
  = String.append (Format.toString 1)
      (String.append Format.colon
         (String.append (Format.twoDigits 2)
            (String.append Format.colon (Format.twoDigits 5))))
  /\ Format.formatDuration (-7200)
     = String.append (Format.toString 0)
         (String.append Format.colon (Format.twoDigits 0)).
Proof.
  destruct (formatDuration_parts 3725) as [Hpos _].
  destruct (formatDuration_parts (-7200)) as [_ Hneg].
  split.
  - exact (proj2 (proj2 (proj2 (Hpos ltac:(lia))))).
  - exact (Hneg ltac:(lia)).
Defined.

(** ** The table of trips *)

Lemma updateRows_same tripId f d :
  Database.getTripById tripId d = None ->
  Database.updateRows tripId f d = d.
Proof.
  unfold Database.getTripById, Database.updateRows. destruct d as [rows next pts].
  cbn. intros Hnone. f_equal.
  induction rows as [| row rows IH]; [reflexivity |].
  cbn in *. destruct (Z.eqb (Trip.id row) tripId); [discriminate |].
  now rewrite IH.
Qed.

Lemma getTripById_updateRows other tripId f d :
  (forall row, Trip.id (f row) = Trip.id row) ->
  Database.getTripById other (Database.updateRows tripId f d)
  = if Z.eqb other tripId
    then option_map f (Database.getTripById other d)
    else Database.getTripById other d.
Proof.
  intros Hid. unfold Database.getTripById. rewrite updateRows_trips.
  induction (Database.trips d) as [| row rows IH].
  - cbn. now destruct (Z.eqb other tripId).
  - cbn. destruct (Z.eqb (Trip.id row) tripId) eqn:Hrow.
    + rewrite Hid. apply Z.eqb_eq in Hrow.
      destruct (Z.eqb (Trip.id row) other) eqn:Hother.
      * apply Z.eqb_eq in Hother.
        replace (Z.eqb other tripId) with true
          by (symmetry; apply Z.eqb_eq; lia).
        reflexivity.
      * exact IH.
    + destruct (Z.eqb (Trip.id row) other) eqn:Hother.
      * apply Z.eqb_eq in Hother. apply Z.eqb_neq in Hrow.
        replace (Z.eqb other tripId) with false
          by (symmetry; apply Z.eqb_neq; lia).
        reflexivity.
      * exact IH.
Qed.

(** X6. Looking a trip up after an update: [updateTripStats] replaces
    exactly the columns it was given, and [completeTrip] sets the status and
    the end time, in the row with the given id; the lookup of every other id
    is as before; and for an id that is not in the table both leave the
    database as it was. *)
Theorem lookup_after_update :
  forall (d : Database.t) (tripId other now : Z)
         (totalDistance maxSpeed avgSpeed : option R),
    Database.getTripById other
      (Database.updateTripStats tripId totalDistance maxSpeed avgSpeed d)
    = (if Z.eqb other tripId
       then option_map (Query.withStats totalDistance maxSpeed avgSpeed)
                       (Database.getTripById other d)
       else Database.getTripById other d)
    /\ Database.getTripById other (Database.completeTrip now tripId d)
       = (if Z.eqb other tripId
          then option_map (Query.completedAt now) (Database.getTripById other d)
          else Database.getTripById other d)
    /\ (Database.getTripById tripId d = None ->
        Database.updateTripStats tripId totalDistance maxSpeed avgSpeed d = d
        /\ Database.completeTrip now tripId d = d).
Proof.
  intros d tripId other now td ms av.
  split; [| split].
  - unfold Database.updateTripStats.
    destruct td, ms, av;
      try (now apply (getTripById_updateRows other tripId)).
    destruct (Z.eqb other tripId); [| reflexivity].
    destruct (Database.getTripById other d) as [[]|]; reflexivity.
  - now apply (getTripById_updateRows other tripId).
  - intros Hnone. split.
    + unfold Database.updateTripStats.
      destruct td, ms, av; try reflexivity; now apply updateRows_same.
    + now apply updateRows_same.
Qed.

(** X6 on the trip of [Scenario.tracking] and on an id that was never
    given out. *)
Lemma lookup_after_update_witness :
  option_map Trip.status
    (Database.getTripById 1 (Database.completeTrip 9000 1 (db Scenario.tracking)))
  = Some completed
  /\ Database.completeTrip 9000 5 (db Scenario.tracking) = db Scenario.tracking.
Proof.
  destruct (lookup_after_update (db Scenario.tracking) 1 1 9000 None None None)
    as (_ & Hc & _).
  destruct (lookup_after_update (db Scenario.tracking) 5 5 9000 None None None)
    as (_ & _ & Hmissing).
  split.
  - rewrite Hc. reflexivity.
  - exact (proj2 (Hmissing eq_refl)).
Defined.

Lemma wellKeyed_updateRows tripId f d :
  (forall row, Trip.id (f row) = Trip.id row) ->
  Query.wellKeyed d -> Query.wellKeyed (Database.updateRows tripId f d).
Proof.
  intros Hid (Hnodup & Hnext & Hrange). unfold Query.wellKeyed.
  rewrite updateRows_trips.
  assert (Hids : map Trip.id
                   (map (fun row => if Z.eqb (Trip.id row) tripId then f row else row)
                        (Database.trips d))
                 = map Trip.id (Database.trips d)).
  { rewrite map_map. apply map_ext. intros row.
    destruct (Z.eqb _ _); [apply Hid | reflexivity]. }
  rewrite Hids. split; [exact Hnodup | split; [exact Hnext |]].
  apply Forall_map. eapply Forall_impl; [| exact Hrange].
  intros row Hrow. cbn. destruct (Z.eqb _ _); [rewrite Hid |]; exact Hrow.
Qed.

Lemma wellKeyed_updateTripStats tripId a b c d :
  Query.wellKeyed d -> Query.wellKeyed (Database.updateTripStats tripId a b c d).
Proof.
  intros H. unfold Database.updateTripStats.
  destruct a, b, c; try exact H; now apply wellKeyed_updateRows.
Qed.

Lemma wellKeyed_createTrip now d :
  Query.wellKeyed d -> Query.wellKeyed (snd (Database.createTrip now d)).
Proof.
  intros (Hnodup & Hnext & Hrange). unfold Query.wellKeyed. cbn.
  rewrite map_app. cbn. split; [| split; [lia |]].
  - apply NoDup_app; [exact Hnodup | repeat constructor; intros [] | ].
    intros x Hin [<- | []]. apply in_map_iff in Hin as (row & Hrow & Hin).
    rewrite Forall_forall in Hrange. specialize (Hrange row Hin). lia.
  - apply Forall_app. split.
    + eapply Forall_impl; [| exact Hrange]. intros row Hrow. cbn in *. lia.
    + repeat constructor; cbn; lia.
Qed.

Lemma wellKeyed_handle e w :
  Query.wellKeyed (db w) -> Query.wellKeyed (db (handle e w)).
Proof.
  intros Hk.
  destruct e as [env now | now | | | location now | | now | now | now |];
    cbn [handle]; try exact Hk.
  - unfold startTracking.
    destruct (negb (isGranted _)); [exact Hk |].
    destruct (negb (databaseAnswers _)); [exact Hk |].
    pose proof (wellKeyed_createTrip now (db w) Hk) as Hk'.
    cbn in *. destruct (negb (foregroundStarted _)); exact Hk'.
  - unfold stopTracking. cbn.
    destruct (tripIdRef (refs w)) as [tripId |]; [| exact Hk].
    destruct (negb _); [| exact Hk].
    now apply wellKeyed_updateRows.
  - unfold handleLocationUpdate.
    destruct (tripIdRef (refs w)) as [tripId |]; [| exact Hk].
    destruct (negb _); [exact Hk |].
    destruct (isPausedRef (refs w)); [exact Hk |].
    cbn -[handleStationaryDetection calculateSpeed updateStore
          Database.updateTripStats Database.addLocationPoint].
    rewrite handleStationaryDetection_db.
    now apply wellKeyed_updateTripStats.
  - destruct (stationaryTimerRef (refs w)); [| exact Hk].
    unfold stationaryTimeout. destruct (_ && _); exact Hk.
  - now rewrite elapsedTimeTick_db.
  - unfold checkGpsLoss.
    destruct (negb _); [exact Hk |].
    destruct (isPausedRef (refs w)); [exact Hk |].
    destruct (_ && _); exact Hk.
  - unfold checkForActiveTrip.
    destruct (Database.getActiveTrip (db w)); [| exact Hk].
    destruct (negb _); exact Hk.
Qed.

Lemma Reachable_wellKeyed cfg t0 w :
  Reachable cfg t0 w -> Query.wellKeyed (db w).
Proof.
  induction 1 as [| e w Hreach IH].
  - repeat split; cbn; [constructor | lia | constructor].
  - now apply wellKeyed_handle.
Qed.

Lemma find_append {A : Type} (f : A -> bool) (front back : list A) :
  find f (front ++ back)
  = match find f front with
    | Some x => Some x
    | None => find f back
    end.
Proof.
  induction front as [| a front IH]; [reflexivity |].
  cbn. now destruct (f a).
Qed.

Lemma getTripById_fresh tripId d :
  Forall (fun row => (Trip.id row < tripId)%Z) (Database.trips d) ->
  Database.getTripById tripId d = None.
Proof.
  unfold Database.getTripById. intros Hall.
  induction (Database.trips d) as [| row rows IH]; [reflexivity |].
  inversion Hall as [| ? ? Hrow Hrows]; subst. cbn.
  destruct (Z.eqb (Trip.id row) tripId) eqn:Heq;
    [apply Z.eqb_eq in Heq; lia | now apply IH].
Qed.

(** X7. In every reachable state no two rows of [trips] share an id. The id
    that the next [createTrip] returns belongs to no row yet, the lookup by
    it then returns the new trip, active and with zero totals, and the
    lookup of every other id is not changed by the insertion. *)
Theorem trip_ids_are_unique :
  forall (cfg : Settings.t) (t0 : Z) (w : World),
    Reachable cfg t0 w ->
    NoDup (map Trip.id (Database.trips (db w)))
    /\ Database.getTripById (Database.nextTripId (db w)) (db w) = None
    /\ (forall now,
          fst (Database.createTrip now (db w)) = Database.nextTripId (db w)
          /\ Database.getTripById (Database.nextTripId (db w))
               (snd (Database.createTrip now (db w)))
             = Some (Query.freshTrip (Database.nextTripId (db w)) now)
          /\ (forall other,
                other <> Database.nextTripId (db w) ->
                Database.getTripById other (snd (Database.createTrip now (db w)))
                = Database.getTripById other (db w))).
Proof.
  intros cfg t0 w Hreach.
  destruct (Reachable_wellKeyed cfg t0 w Hreach) as (Hnodup & Hnext & Hrange).
  assert (Hfresh : Database.getTripById (Database.nextTripId (db w)) (db w) = None).
  { apply getTripById_fresh. eapply Forall_impl; [| exact Hrange].
    intros row Hrow. cbn in Hrow. lia. }
  split; [exact Hnodup | split; [exact Hfresh |]].
  intros now. split; [reflexivity | split].
  - unfold Database.getTripById in *. cbn.
    rewrite find_append, Hfresh. cbn. now rewrite Z.eqb_refl.
  - intros other Hother. unfold Database.getTripById. cbn.
    rewrite find_append.
    destruct (find _ (Database.trips (db w))); [reflexivity |].
    cbn. now rewrite (proj2 (Z.eqb_neq _ _) (not_eq_sym Hother)).
Qed.

(** X7 on the state with one trip started. *)
Lemma trip_ids_are_unique_witness :
  Reachable Scenario.cfg 0 Scenario.tracking
  /\ Database.getTripById 2 (db Scenario.tracking) = None
  /\ option_map Trip.status
       (Database.getTripById 2
          (snd (Database.createTrip 5000 (db Scenario.tracking))))
     = Some active.
Proof.
  assert (H : Reachable Scenario.cfg 0 Scenario.tracking).
  { unfold Scenario.tracking, Scenario.idle.
    apply Reachable_step, Reachable_init. }
  destruct (trip_ids_are_unique _ _ _ H) as (_ & Hnone & Hnew).
  split; [exact H | split; [exact Hnone |]].
  destruct (Hnew 5000%Z) as (_ & Hlookup & _).
  exact (f_equal (option_map Trip.status) Hlookup).
Defined.

(** ** Status and end time *)

(** X8. [updateTripStatus] with status completed does what [completeTrip]
    does. With any other status it leaves the end time as it is, so a
    completed trip that is set back to active keeps the end time of its
    completion (and is found again by [getActiveTrip]'s condition). A second
    [completeTrip] replaces the end time of the first. *)
Theorem status_and_end_time :
  forall (d : Database.t) (tripId now later : Z),
    Query.updateTripStatus now tripId completed d
    = Database.completeTrip now tripId d
    /\ (forall row,
          Database.getTripById tripId d = Some row ->
          option_map (fun r => (Trip.status r, Trip.endTime r))
            (Database.getTripById tripId
               (Query.updateTripStatus later tripId active
                  (Database.completeTrip now tripId d)))
          = Some (active, Some now))
    /\ Database.completeTrip later tripId (Database.completeTrip now tripId d)
       = Database.completeTrip later tripId d.
Proof.
  intros d tripId now later. split; [reflexivity | split].
  - intros row Hrow. unfold Query.updateTripStatus. cbn [TripStatus_eqb].
    rewrite getTripById_updateRows by reflexivity.
    rewrite Z.eqb_refl.
    unfold Database.completeTrip.
    rewrite getTripById_updateRows by reflexivity.
    rewrite Z.eqb_refl, Hrow. reflexivity.
  - unfold Database.completeTrip, Database.updateRows. cbn. f_equal.
    rewrite map_map. apply map_ext. intros row.
    destruct (Z.eqb (Trip.id row) tripId) eqn:Heq; cbn; now rewrite Heq.
Qed.

(** X8 on the trip of [Scenario.tracking], completed at 9000 and set back
    to active at 12000. *)
Lemma status_and_end_time_witness :
  option_map (fun r => (Trip.status r, Trip.endTime r))
    (Database.getTripById 1
       (Query.updateTripStatus 12000 1 active
          (Database.completeTrip 9000 1 (db Scenario.tracking))))
  = Some (active, Some 9000%Z).
Proof.
  destruct (status_and_end_time (db Scenario.tracking) 1 9000 12000)
    as (_ & Hreopen & _).
  exact (Hreopen _ eq_refl).
Defined.

(** ** The history list *)

Lemma insertByStartTime_perm row sorted :
  Permutation.Permutation (Query.insertByStartTime row sorted) (row :: sorted).
Proof.
  induction sorted as [| first rest IH]; cbn.
  - apply Permutation.Permutation_refl.
  - destruct (Z.leb _ _); [apply Permutation.Permutation_refl |].
    eapply Permutation.perm_trans; [apply Permutation.perm_skip, IH |].
    apply Permutation.perm_swap.
Qed.

Lemma orderByStartTimeDesc_perm rows :
  Permutation.Permutation (Query.orderByStartTimeDesc rows) rows.
Proof.
  induction rows as [| row rows IH]; cbn.
  - apply Permutation.perm_nil.
  - eapply Permutation.perm_trans; [apply insertByStartTime_perm |].
    now apply Permutation.perm_skip.
Qed.

Lemma insertByStartTime_sorted row sorted :
  Sorted.StronglySorted
    (fun a b => (Trip.startTime b <= Trip.startTime a)%Z) sorted ->
  Sorted.StronglySorted
    (fun a b => (Trip.startTime b <= Trip.startTime a)%Z)
    (Query.insertByStartTime row sorted).
Proof.
  induction 1 as [| first rest Hrest IH Hfirst]; cbn.
  - repeat constructor.
  - destruct (Z.leb (Trip.startTime first) (Trip.startTime row)) eqn:Hle.
    + apply Z.leb_le in Hle. constructor; [now constructor |].
      constructor; [exact Hle |].
      eapply Forall_impl; [| exact Hfirst]. intros r Hr. cbn in *. lia.
    + apply Z.leb_gt in Hle. constructor; [exact IH |].
      eapply Permutation.Permutation_Forall;
        [apply Permutation.Permutation_sym, insertByStartTime_perm |].
      constructor; [lia | exact Hfirst].
Qed.

Lemma orderByStartTimeDesc_sorted rows :
  Sorted.StronglySorted
    (fun a b => (Trip.startTime b <= Trip.startTime a)%Z)
    (Query.orderByStartTimeDesc rows).
Proof.
  induction rows as [| row rows IH]; cbn; [constructor |].
  now apply insertByStartTime_sorted.
Qed.

Lemma In_getAllTrips row d :
  In row (Database.trips d) ->
  In {| Query.trip := row; Query.duration := Query.durationOf row |}
     (Query.getAllTrips d).
Proof.
  intros Hin. unfold Query.getAllTrips.
  apply (in_map (fun r => {| Query.trip := r; Query.duration := Query.durationOf r |})).
  eapply Permutation.Permutation_in;
    [apply Permutation.Permutation_sym, orderByStartTimeDesc_perm | exact Hin].
Qed.

(** X9. [getAllTrips] lists every row of the table exactly once, the trip
    that started last first. A trip without end time is listed with
    duration 0, and a trip that [completeTrip] has just completed at [now]
    is listed as completed with the whole seconds from its start to [now]. *)
Theorem history_lists_every_trip :
  forall d : Database.t,
    Permutation.Permutation (map Query.trip (Query.getAllTrips d))
                            (Database.trips d)
    /\ Sorted.StronglySorted
         (fun a b => (Trip.startTime (Query.trip b)
                      <= Trip.startTime (Query.trip a))%Z)
         (Query.getAllTrips d)
    /\ (forall row,
          In row (Database.trips d) -> Trip.endTime row = None ->
          In {| Query.trip := row; Query.duration := 0 |} (Query.getAllTrips d))
    /\ (forall tripId now row,
          Database.getTripById tripId d = Some row -> now <> 0%Z ->
          In {| Query.trip := Query.completedAt now row;
                Query.duration := ((now - Trip.startTime row) / 1000)%Z |}
             (Query.getAllTrips (Database.completeTrip now tripId d))).
Proof.
  intros d. split; [| split; [| split]].
  - unfold Query.getAllTrips. rewrite map_map. cbn. rewrite map_id.
    apply orderByStartTimeDesc_perm.
  - unfold Query.getAllTrips.
    pose proof (orderByStartTimeDesc_sorted (Database.trips d)) as Hs.
    induction Hs as [| first rest Hrest IH Hfirst]; cbn; constructor.
    + exact IH.
    + apply Forall_map. exact Hfirst.
  - intros row Hin Hend.
    pose proof (In_getAllTrips row d Hin) as H.
    unfold Query.durationOf in H. now rewrite Hend in H.
  - intros tripId now row Hrow Hnow.
    unfold Database.getTripById in Hrow. apply find_some in Hrow as [Hin Hid].
    assert (Hin' : In (Query.completedAt now row)
                      (Database.trips (Database.completeTrip now tripId d))).
    { unfold Database.completeTrip. rewrite updateRows_trips.
      apply in_map_iff. exists row. rewrite Hid. split; [reflexivity | exact Hin]. }
    pose proof (In_getAllTrips _ _ Hin') as H.
    unfold Query.durationOf in H. cbn in H.
    now rewrite (proj2 (Z.eqb_neq now 0) Hnow) in H.
Qed.

(** X9 on the trip of [Scenario.tracking], started at 0 and completed at
    9500. *)
Lemma history_lists_every_trip_witness :
  In {| Query.trip := Query.completedAt 9500 (Query.freshTrip 1 0);
        Query.duration := 9 |}
     (Query.getAllTrips (Database.completeTrip 9500 1 (db Scenario.tracking))).
Proof.
  destruct (history_lists_every_trip (db Scenario.tracking))
    as (_ & _ & _ & Hdone).
  exact (Hdone 1%Z 9500%Z (Query.freshTrip 1 0) eq_refl ltac:(discriminate)).
Defined.

(** ** Stored points *)

Lemma pointsOfTrip_addLocationPoint tripId point d :
  Query.pointsOfTrip tripId (Database.addLocationPoint point d)
  = Query.pointsOfTrip tripId d
    ++ (if Z.eqb (LocationPoint.tripId point) tripId then [point] else []).
Proof.
  unfold Query.pointsOfTrip. cbn. now rewrite filter_app.
Qed.


(** X10. The number of points stored for a trip goes up by one when a point
    of that trip is added and is not changed by a point of another trip;
    [deleteLocationPointsForTrip] brings it to 0 and touches neither the
    points of any other trip nor the trips. *)
Theorem points_are_counted :
  forall (d : Database.t) (tripId : Z),
    (forall point,
       Query.getLocationPointCount tripId (Database.addLocationPoint point d)
       = (Query.getLocationPointCount tripId d
          + (if Z.eqb (LocationPoint.tripId point) tripId then 1 else 0))%Z)
    /\ Query.getLocationPointCount tripId
         (Query.deleteLocationPointsForTrip tripId d) = 0%Z
    /\ (forall other,
          other <> tripId ->
          Query.pointsOfTrip other (Query.deleteLocationPointsForTrip tripId d)
          = Query.pointsOfTrip other d)
    /\ Database.trips (Query.deleteLocationPointsForTrip tripId d)
       = Database.trips d.
Proof.
  intros d tripId. split; [| split; [| split; [| reflexivity]]].
  - intros point. unfold Query.getLocationPointCount.
    rewrite pointsOfTrip_addLocationPoint, length_app.
    destruct (Z.eqb _ _); cbn; lia.
  - unfold Query.getLocationPointCount, Query.pointsOfTrip,
      Query.deleteLocationPointsForTrip. cbn.
    induction (Database.location_points d) as [| p pts IH]; [reflexivity |].
    cbn. destruct (Z.eqb (LocationPoint.tripId p) tripId) eqn:Heq; cbn;
      [exact IH | now rewrite Heq].
  - intros other Hother.
    unfold Query.pointsOfTrip, Query.deleteLocationPointsForTrip. cbn.
    induction (Database.location_points d) as [| p pts IH]; [reflexivity |].
    cbn. destruct (Z.eqb (LocationPoint.tripId p) tripId) eqn:Heq; cbn.
    + apply Z.eqb_eq in Heq.
      rewrite (proj2 (Z.eqb_neq (LocationPoint.tripId p) other)) by lia.
      exact IH.
    + destruct (Z.eqb (LocationPoint.tripId p) other); [now rewrite IH | exact IH].
Qed.

(** X10 on deleting the points of trip 1 while looking at trip 2. *)
Lemma points_are_counted_witness :
  Query.pointsOfTrip 2
    (Query.deleteLocationPointsForTrip 1
       (Database.addLocationPoint (Scenario.point None 0) Database.empty))
  = Query.pointsOfTrip 2
      (Database.addLocationPoint (Scenario.point None 0) Database.empty).
Proof.
  destruct (points_are_counted
              (Database.addLocationPoint (Scenario.point None 0) Database.empty)
              1) as (_ & _ & Hother & _).
  exact (Hother 2%Z ltac:(discriminate)).
Defined.

(** ** A session of orderly turns *)

Import Session.










Lemma updateElapsedTime_frame now s :
  TripStore.isTracking (TripStore.updateElapsedTime now s) = TripStore.isTracking s
  /\ TripStore.currentTripId (TripStore.updateElapsedTime now s)
     = TripStore.currentTripId s
  /\ TripStore.lastLocation (TripStore.updateElapsedTime now s)
     = TripStore.lastLocation s
  /\ TripStore.totalDistance (TripStore.updateElapsedTime now s)
     = TripStore.totalDistance s
  /\ TripStore.maxSpeed (TripStore.updateElapsedTime now s) = TripStore.maxSpeed s
  /\ TripStore.tripStartTime (TripStore.updateElapsedTime now s)
     = TripStore.tripStartTime s
  /\ TripStore.isPaused (TripStore.updateElapsedTime now s) = TripStore.isPaused s.
Proof.
  unfold TripStore.updateElapsedTime.
  destruct (TripStore.tripStartTime s) eqn:Hstart;
    [| rewrite ?Hstart; repeat split; assumption].
  destruct (_ && _); cbn; rewrite ?Hstart; repeat split.
Qed.













(** ** Samples and the database *)

Lemma handleLocationUpdate_lastGpsUpdate location now w :
  lastGpsUpdateRef (refs (handleLocationUpdate location now w)) = now.
Proof.
  unfold handleLocationUpdate.
  destruct (tripIdRef (refs w)); [| reflexivity].
  destruct (negb _); [reflexivity |].
  destruct (isPausedRef (refs w)); [reflexivity |].
  cbn -[handleStationaryDetection calculateSpeed updateStore].
  rewrite handleStationaryDetection_refs. reflexivity.
Qed.



(** ** The GPS-loss watchdog *)

(** X15. [checkGpsLoss] marks the GPS lost when a trip is tracked and not
    paused and more than 10 s have passed since the last location update,
    and then changes nothing but [gpsStatus]; up to 10 s, or while paused,
    or with no trip, it changes nothing at all. Every location update
    restarts the 10 s, also one that is dropped because the trip is paused;
    one that reaches a running trip sets the status to acquired, one that is
    dropped leaves the status as it is. *)
Theorem gps_loss_watchdog :
  forall (w : World) (now : Z),
    (TripStore.isTracking (store w) = true ->
     isPausedRef (refs w) = false ->
     (10000 < now - lastGpsUpdateRef (refs w))%Z ->
     TripStore.gpsStatus (store (checkGpsLoss now w)) = lost
     /\ (store (checkGpsLoss now w) = store w
         \/ store (checkGpsLoss now w)
            = TripStore.updateGpsStatus lost (store w))
     /\ refs (checkGpsLoss now w) = refs w
     /\ db (checkGpsLoss now w) = db w)
    /\ ((now - lastGpsUpdateRef (refs w) <= 10000)%Z
        \/ isPausedRef (refs w) = true
        \/ TripStore.isTracking (store w) = false ->
        checkGpsLoss now w = w)
    /\ (forall location t,
          (now - t <= 10000)%Z ->
          checkGpsLoss now (handleLocationUpdate location t w)
          = handleLocationUpdate location t w)
    /\ (forall location t tripId,
          tripIdRef (refs w) = Some tripId -> tripId <> 0%Z ->
          isPausedRef (refs w) = false ->
          TripStore.gpsStatus (store (handleLocationUpdate location t w))
          = acquired)
    /\ (forall location t,
          isPausedRef (refs w) = true ->
          TripStore.gpsStatus (store (handleLocationUpdate location t w))
          = TripStore.gpsStatus (store w)).
Proof.
  intros w now.
  assert (Hquiet : forall x,
            (now - lastGpsUpdateRef (refs x) <= 10000)%Z
            \/ isPausedRef (refs x) = true
            \/ TripStore.isTracking (store x) = false ->
            checkGpsLoss now x = x).
  { intros x H. unfold checkGpsLoss.
    destruct (TripStore.isTracking (store x)); cbn [negb]; [| reflexivity].
    destruct (isPausedRef (refs x)); [reflexivity |].
    destruct H as [H | [H | H]]; try discriminate.
    now rewrite (proj2 (Z.ltb_ge _ _) H). }
  split; [| split; [exact (Hquiet w) | split; [| split]]].
  - intros Htr Hp Hgap. unfold checkGpsLoss. rewrite Htr, Hp. cbn [negb].
    rewrite (proj2 (Z.ltb_lt _ _) Hgap). cbn [andb].
    destruct (TripStore.gpsStatus (store w)) eqn:Hst; cbn; auto.
  - intros location t Ht. apply Hquiet. left.
    now rewrite handleLocationUpdate_lastGpsUpdate.
  - intros location t tripId Hid Hnz Hp.
    rewrite handleLocationUpdate_store, Hid, Hp. cbn [truthy].
    rewrite (proj2 (Z.eqb_neq tripId 0) Hnz). cbn [negb andb]. cbv zeta.
    unfold updateStore. cbv zeta. destruct (num_gt _ 0); reflexivity.
  - intros location t Hp. now rewrite handleLocationUpdate_paused.
Qed.

(** X15 on the trip of [Scenario.tracking], 12 s after its start with no
    sample, and on the sample that then arrives. *)
Lemma gps_loss_watchdog_witness :
  TripStore.gpsStatus (store (checkGpsLoss 12000 Scenario.tracking)) = lost
  /\ TripStore.gpsStatus
       (store (handleLocationUpdate (Scenario.sample 360 12500) 12500
                 (checkGpsLoss 12000 Scenario.tracking))) = acquired.
Proof.
  destruct (gps_loss_watchdog Scenario.tracking 12000) as (Hlost & _).
  destruct (Hlost eq_refl eq_refl ltac:(reflexivity))
    as (Hst & _ & Hrefs & _).
  split; [exact Hst |].
  destruct (gps_loss_watchdog (checkGpsLoss 12000 Scenario.tracking) 0)
    as (_ & _ & _ & Hacq & _).
  apply (Hacq _ _ 1%Z); [| discriminate |]; rewrite Hrefs; reflexivity.
Defined.

(** ** Manual pause and resume *)

Lemma setPaused_round_trip s :
  TripStore.isPaused s = false ->
  TripStore.resumeTracking (TripStore.pauseTracking s) = s.
Proof.
  intros H. destruct s. cbn in *. subst. reflexivity.
Qed.

(** X16. The pause button does not cancel a stationary timeout that is
    pending, and a location update that arrives during the pause cannot
    cancel it either, whatever its speed: it is dropped before the
    stationary detection. So after pause, one sample and resume the store is
    what it was before the pause, the same timeout is still pending, and
    when it runs out it pauses the trip. *)
Theorem manual_pause_keeps_the_timer :
  forall (w : World) (due : Z) (location : LocationObject.t) (now : Z),
    activeTrip w = true ->
    stationaryTimerRef (refs w) = Some due ->
    let paused := step Pause w in
    let during := step (LocationUpdate location now) paused in
    let resumed := step Resume during in
    TripStore.isPaused (store paused) = true
    /\ store during = store paused
    /\ db resumed = db w
    /\ store resumed = store w
    /\ stationaryTimerRef (refs resumed) = Some due
    /\ activeTrip resumed = true
    /\ pausedTrip (step StationaryTimeout resumed) = true.
Proof.
  intros w due location now Hact Hdue paused during resumed.
  destruct (activeTrip_inv w Hact) as (Hen & Htr & Htruthy & Heq & Hp & Hpr).
  assert (Hduring : during = syncRefs (withRefs (setLastGpsUpdate now) paused)).
  { unfold during. rewrite step_unfold. cbn [handle].
    now rewrite handleLocationUpdate_paused by reflexivity. }
  assert (Hstore : store resumed = store w).
  { unfold resumed. rewrite step_unfold, Hduring. cbn.
    now apply setPaused_round_trip. }
  assert (Htimer : stationaryTimerRef (refs resumed) = Some due).
  { unfold resumed. rewrite step_unfold, Hduring. cbn. exact Hdue. }
  assert (Hact' : activeTrip resumed = true).
  { unfold activeTrip. rewrite Hstore.
    unfold resumed at 1. rewrite step_settings.
    unfold during at 1. rewrite step_settings.
    unfold paused at 1. rewrite step_settings.
    assert (Hrefs : tripIdRef (refs resumed) = TripStore.currentTripId (store w)
                    /\ isPausedRef (refs resumed) = false).
    { unfold resumed. rewrite step_unfold, Hduring. cbn. auto. }
    destruct Hrefs as [-> ->]. rewrite Hen, Htr, Hp, Heq, Htruthy. cbn.
    destruct (tripIdRef (refs w)); [cbn; now rewrite Z.eqb_refl | reflexivity]. }
  split; [reflexivity |].
  split; [now rewrite Hduring |].
  split; [unfold resumed; rewrite step_unfold, Hduring; reflexivity |].
  split; [exact Hstore |].
  split; [exact Htimer |].
  split; [exact Hact' |].
  exact (step_timeout_active resumed due Hact' Htimer).
Qed.

Lemma tracking_armed :
  activeTrip (step (LocationUpdate (Scenario.sample 10 0) 0) Scenario.tracking)
  = true
  /\ stationaryTimerRef
       (refs (step (LocationUpdate (Scenario.sample 10 0) 0) Scenario.tracking))
     = Some 5000%Z.
Proof.
  exact (step_location_below (Scenario.sample 10 0) 0 Scenario.tracking
           eq_refl (sample_1kmh_below 0)).
Qed.

(** X16 on [Scenario.tracking] after one sample at 1 km/h: paused by hand,
    a sample at 36 km/h during the pause, resumed, and the timeout. *)
Lemma manual_pause_keeps_the_timer_witness :
  let w := step (LocationUpdate (Scenario.sample 10 0) 0) Scenario.tracking in
  let resumed :=
    step Resume (step (LocationUpdate (Scenario.sample 360 1000) 1000)
                   (step Pause w)) in
  activeTrip w = true
  /\ stationaryTimerRef (refs resumed) = Some 5000%Z
  /\ pausedTrip (step StationaryTimeout resumed) = true.
Proof.
  intros w resumed.
  destruct tracking_armed as [Hact Hdue].
  destruct (manual_pause_keeps_the_timer w 5000%Z (Scenario.sample 360 1000)
              1000%Z Hact Hdue) as (_ & _ & _ & _ & Ht & _ & Hpaused).
  split; [exact Hact | split; [exact Ht | exact Hpaused]].
Defined.

(** ** The elapsed time *)

Lemma updateStore_tripStartTime now p v d s :
  TripStore.tripStartTime (updateStore now p v d s) = TripStore.tripStartTime s.
Proof. unfold updateStore. cbv zeta. destruct (num_gt d 0); reflexivity. Qed.

Lemma duringTrip_handle e w :
  duringTrip e = true ->
  TripStore.isTracking (store w) = true ->
  TripStore.isTracking (store (handle e w)) = true
  /\ TripStore.tripStartTime (store (handle e w))
     = TripStore.tripStartTime (store w).
Proof.
  intros He Htr.
  destruct e as [env now | now | | | location now | | now | now | now |];
    try discriminate; cbn [handle].
  - now cbn.
  - now cbn.
  - rewrite handleLocationUpdate_store.
    destruct (tripIdRef (refs w)); [| auto].
    destruct (_ && _); [| auto]. cbv zeta.
    now rewrite updateStore_isTracking, updateStore_tripStartTime.
  - destruct (stationaryTimerRef (refs w)); [| auto].
    unfold stationaryTimeout. destruct (_ && _); cbn; auto.
  - rewrite elapsedTimeTick_isTracking. split; [exact Htr |].
    unfold elapsedTimeTick.
    destruct (_ && _); [| reflexivity].
    destruct (_ && _); [destruct (TripStore.lastLocation (store w)) |];
      cbn; apply updateElapsedTime_frame.
  - unfold checkGpsLoss. rewrite Htr. cbn [negb].
    destruct (isPausedRef (refs w)); [auto |].
    destruct (_ && _); cbn; auto.
  - unfold checkForActiveTrip. rewrite Htr. cbn [negb].
    destruct (Database.getActiveTrip (db w)); auto.
  - now cbn.
Qed.

Lemma duringTrip_run events :
  forall w,
    forallb duringTrip events = true ->
    TripStore.isTracking (store w) = true ->
    TripStore.isTracking (store (run events w)) = true
    /\ TripStore.tripStartTime (store (run events w))
       = TripStore.tripStartTime (store w).
Proof.
  unfold run. induction events as [| e rest IH]; intros w Hall Htr; [auto |].
  cbn [forallb] in Hall. apply andb_true_iff in Hall as [He Hrest].
  destruct (duringTrip_handle e w He Htr) as [Htr' Hstart'].
  cbn [fold_left]. destruct (IH _ Hrest Htr') as [H1 H2].
  split; [exact H1 | now rewrite H2].
Qed.

(** X17. The elapsed time is wall-clock time since the start of the trip:
    nothing that happens during the trip (pause, resume, auto-pause,
    samples, ticks, checks) moves [tripStartTime], and a tick on a trip that
    is not paused sets [elapsedTime] to the whole seconds since that start
    and [avgSpeed] to the distance over that time, so time spent paused is
    counted. While the trip is paused the tick does nothing. *)
Theorem elapsed_time_counts_pauses :
  forall (events : list Event) (w : World) (start now : Z),
    TripStore.isTracking (store w) = true ->
    TripStore.tripStartTime (store w) = Some start ->
    start <> 0%Z ->
    forallb duringTrip events = true ->
    let w' := run events w in
    TripStore.tripStartTime (store w') = Some start
    /\ (TripStore.isPaused (store w') = false ->
        TripStore.elapsedTime (store (elapsedTimeTick now w'))
        = ((now - start) / 1000)%Z
        /\ TripStore.avgSpeed (store (elapsedTimeTick now w'))
           = TripStore.average (TripStore.totalDistance (store w'))
               (IZR ((now - start) / 1000) / 3600))
    /\ (TripStore.isPaused (store w') = true -> elapsedTimeTick now w' = w').
Proof.
  intros events w start now Htr Hstart Hnz Hall w'.
  destruct (duringTrip_run events w Hall Htr) as [Htr' Hstart'].
  fold w' in Htr', Hstart'. rewrite Hstart in Hstart'.
  split; [exact Hstart' | split].
  - intros Hp. unfold elapsedTimeTick. rewrite Htr', Hp. cbn [andb negb].
    assert (E : TripStore.updateElapsedTime now (store w')
                = TripStore.updateElapsedTime now (store w')) by reflexivity.
    unfold TripStore.updateElapsedTime in E at 2.
    rewrite Hstart', Htr', Hp in E. cbn [truthy] in E.
    rewrite (proj2 (Z.eqb_neq start 0) Hnz) in E. cbn [negb andb] in E.
    destruct (_ && _); [destruct (TripStore.lastLocation (store w')) |];
      cbn [withStore store TripStore.updateLocation TripStore.elapsedTime
           TripStore.avgSpeed]; rewrite E; cbn; auto.
  - intros Hp. unfold elapsedTimeTick. rewrite Hp.
    now rewrite andb_false_r.
Qed.

(** X17 on a trip started at 1 s, paused by hand and resumed: the tick at
    61 s shows 60 s. *)
Lemma elapsed_time_counts_pauses_witness :
  TripStore.elapsedTime
    (store (elapsedTimeTick 61000
              (run [Pause; Render; Resume; Render]
                 (step (Start Scenario.envOk 1000) Scenario.idle))))
  = 60%Z.
Proof.
  destruct (elapsed_time_counts_pauses [Pause; Render; Resume; Render]
              (step (Start Scenario.envOk 1000) Scenario.idle)
              1000%Z 61000%Z eq_refl eq_refl ltac:(discriminate) eq_refl)
    as (_ & Hrun & _).
  exact (proj1 (Hrun eq_refl)).
Defined.
